(** * Cloud SQL wrapper (pontem, [util/cloudsql.py]): model and properties

    The module under study is a thin layer over the Cloud SQL admin API.
    It builds request bodies, hands them to a service proxy and picks two
    fields out of the answer.  The model below keeps the Python shape:

    - JSON documents are values of [json]; a [dict] is an association list
      in source order, looked up by key;
    - raising is a left injection in [result]; every Python exception class
      the code can meet has a constructor in [exn];
    - the outside world (credential lookup, service construction, the
      random identifier source and the remote service itself) is an [env];
      what a call does to it (identifiers drawn, requests put on the wire)
      is threaded through a [world]. *)

From Stdlib Require Import String Ascii List ZArith Bool Lia.
Import ListNotations.
Local Open Scope string_scope.

(** ** Python values *)

#[local] Set Warnings "-register-all".

(** JSON as the API client hands it over.  [JNull] is Python's [None];
    numbers are kept as integers, no operation of the module computes with
    them. *)
Inductive json : Type :=
| JNull
| JBool (b : bool)
| JNum (n : Z)
| JStr (s : string)
| JArr (items : list json)
| JObj (fields : list (string * json)).

(** Exception classes met by the module. *)
Inductive exn : Type :=
| KeyError (arg : string)
| StopIteration
| TypeError
| NameError (msg : string)
| HttpError (status : Z)
| HttpLib2Error
| OtherError (cls : string).

Definition result (A : Type) : Type := (exn + A)%type.

Definition raise {A : Type} (e : exn) : result A := inl e.
Definition ok {A : Type} (a : A) : result A := inr a.

(** An argument that is either [None] or a [str]. *)
Definition pyarg : Type := option string.

(** [str(x)] as used by [str.format] on such an argument. *)
Definition py_str (a : pyarg) : string :=
  match a with
  | None => "None"
  | Some s => s
  end.

(** The argument as a JSON value inside a request body. *)
Definition to_json (a : pyarg) : json :=
  match a with
  | None => JNull
  | Some s => JStr s
  end.

(** Truth value of an argument: [None] and the empty string are false. *)
Definition arg_truthy (a : pyarg) : bool :=
  match a with
  | None => false
  | Some s => negb (s =? "")
  end.

(** [a or b] on arguments. *)
Definition arg_or (a b : pyarg) : pyarg :=
  if arg_truthy a then a else b.

(** Truth value of a JSON value ([bool(v)]). *)
Definition truthy (v : json) : bool :=
  match v with
  | JNull => false
  | JBool b => b
  | JNum n => negb (n =? 0)%Z
  | JStr s => negb (s =? "")
  | JArr items => match items with [] => false | _ :: _ => true end
  | JObj fields => match fields with [] => false | _ :: _ => true end
  end.

(** [a or b] on JSON values. *)
Definition json_or (a b : json) : json :=
  if truthy a then a else b.

(** [v == s] for a string literal [s]. *)
Definition eq_str (v : json) (s : string) : bool :=
  match v with
  | JStr t => t =? s
  | _ => false
  end.

(** Lookup in a [dict]. *)
Fixpoint dict_get (fields : list (string * json)) (k : string) : option json :=
  match fields with
  | [] => None
  | (k', v) :: rest => if k' =? k then Some v else dict_get rest k
  end.

Definition dict_has (fields : list (string * json)) (k : string) : bool :=
  match dict_get fields k with
  | Some _ => true
  | None => false
  end.

(** [p in s] on strings: [p] occurs in [s]. *)
Fixpoint occurs (p s : string) : bool :=
  match s with
  | EmptyString => p =? ""
  | String _ s' => prefix p s || occurs p s'
  end.

(** [k in v] for a string key [k]. *)
Definition py_in (k : string) (v : json) : result bool :=
  match v with
  | JObj fields => ok (dict_has fields k)
  | JArr items => ok (existsb (fun x => eq_str x k) items)
  | JStr s => ok (occurs k s)
  | JNull | JBool _ | JNum _ => raise TypeError
  end.

(** [v[k]] for a string key [k]. *)
Definition py_getitem (v : json) (k : string) : result json :=
  match v with
  | JObj fields =>
      match dict_get fields k with
      | Some x => ok x
      | None => raise (KeyError k)
      end
  | _ => raise TypeError
  end.

(** The characters of a string, each as a one-character string. *)
Fixpoint chars (s : string) : list json :=
  match s with
  | EmptyString => []
  | String c s' => JStr (String c EmptyString) :: chars s'
  end.

(** The elements [for x in v] runs over. *)
Definition py_iter (v : json) : result (list json) :=
  match v with
  | JArr items => ok items
  | JObj fields => ok (map (fun kv => JStr (fst kv)) fields)
  | JStr s => ok (chars s)
  | JNull | JBool _ | JNum _ => raise TypeError
  end.

(** ** Module constants *)

Definition DEFAULT_1ST_GEN_DB_VERSION := "MYSQL_5_6".
Definition DEFAULT_2ND_GEN_DB_VERSION := "MYSQL_5_7".
Definition DEFAULT_1ST_GEN_TIER := "d2".
Definition DEFAULT_2ND_GEN_TIER := "db-n1-standard-2".
Definition DEFAULT_1ST_GEN_REGION := "us-central".
Definition DEFAULT_2ND_GEN_REGION := "us-central1".
Definition DEFAULT_REPLICATION_PORT := "3306".

(** The three format strings have one hole each, at the end. *)
Definition DEFAULT_CLOUDSQL_FORMAT_STRING (x : string) := "cloudsql-db-" ++ x.
Definition DEFAULT_EXT_MASTER_FORMAT_STRING (x : string) :=
  "external-mysql-representation-" ++ x.
Definition DEFAULT_REPLICA_FORMAT_STRING (x : string) := "cloudsql-replica-" ++ x.

Definition SQL_ADMIN_SERVICE := "sqladmin".
Definition SQL_ADMIN_SERVICE_VERSION := "v1beta4".

Definition IP_ADDRESSES := "ipAddresses".
Definition IP_ADDRESS := "ipAddress".
Definition SERVICE_ACCOUNT_EMAIL := "serviceAccountEmailAddress".

Definition SUPPORTED_VERSIONS : list string := ["MYSQL_5_6"; "MYSQL_5_7"].

Definition supported_version (v : json) : bool :=
  existsb (eq_str v) SUPPORTED_VERSIONS.

(** ** Raising computations without effects *)

Definition and_then {A B : Type} (r : result A) (k : A -> result B)
  : result B :=
  match r with
  | inl e => inl e
  | inr a => k a
  end.

Notation "x <~ r ;; k" := (and_then r (fun x => k))
  (at level 61, r at next level, right associativity).

(** ** Reading an instance description *)

(** [next(x for x in items if x['type'] == 'OUTGOING')]: the generator stops
    at the first hit, raises what the filter raises, and [next] without a
    default raises [StopIteration] when the items run out. *)
Fixpoint next_outgoing (items : list json) : result json :=
  match items with
  | [] => raise StopIteration
  | ip_address :: rest =>
      t <~ py_getitem ip_address "type" ;;
      if eq_str t "OUTGOING" then ok ip_address else next_outgoing rest
  end.

(** The part of [get_outgoing_ip_of_instance] after the description has been
    fetched. *)
Definition outgoing_ip_of_response (response : json) : result json :=
  present <~ py_in IP_ADDRESSES response ;;
  if present then
    addresses <~ py_getitem response IP_ADDRESSES ;;
    items <~ py_iter addresses ;;
    outgoing_ip_address <~ next_outgoing items ;;
    if truthy outgoing_ip_address
    then py_getitem outgoing_ip_address IP_ADDRESS
    else raise (KeyError "No outgoing IP address found.")
  else raise (KeyError (IP_ADDRESSES ++ " not found in response.")).

(** The part of [get_ip_and_service_account] after the description has been
    fetched.  An absent half of the pair is [None], that is [JNull]. *)
Definition ip_and_service_account_of_response (response : json)
  : result (json * json) :=
  present <~ py_in IP_ADDRESSES response ;;
  ip_address <~
    (if present then
       addresses <~ py_getitem response IP_ADDRESSES ;;
       items <~ py_iter addresses ;;
       outgoing_ip_address <~ next_outgoing items ;;
       if truthy outgoing_ip_address
       then py_getitem outgoing_ip_address IP_ADDRESS
       else ok JNull
     else ok JNull) ;;
  has_account <~ py_in SERVICE_ACCOUNT_EMAIL response ;;
  service_account <~
    (if has_account then py_getitem response SERVICE_ACCOUNT_EMAIL
     else ok JNull) ;;
  ok (ip_address, service_account).

(** ** The outside world *)

(** A credentials object; only its identity matters here. *)
Inductive credentials : Type :=
| Credentials (id : string).

(** The proxy built by [gcp_api_util.build_authorized_service]. *)
Record service : Type := {
  service_name : string;
  service_version : string;
  service_credentials : credentials
}.

(** A request object of the proxy, as built by [service.instances().insert],
    [service.instances().import_], [service.operations().get] and
    [service.instances().get]. *)
Inductive request : Type :=
| instances_insert (svc : service) (project : pyarg) (body : json)
| instances_import (svc : service) (project : pyarg) (instance : pyarg)
    (body : json)
| operations_get (svc : service) (project : pyarg) (operation : pyarg)
| instances_get (svc : service) (project : pyarg) (instance : pyarg).

(** What lies outside the module.  [build_authorized_service] is the helper of
    [gcp_api_util], taken as given; [remote] answers a request, knowing the
    requests executed before it. *)
Record env : Type := {
  google_auth_default : result (credentials * pyarg);
  build_authorized_service : string -> string -> credentials -> result service;
  uuid4 : nat -> string;
  remote : list request -> request -> result json
}.

(** What a run has done so far: identifiers drawn and requests executed,
    oldest first. *)
Record world : Type := {
  uuids_drawn : nat;
  wire : list request
}.

Definition world0 : world := {| uuids_drawn := 0; wire := [] |}.

(** ** Computations that may raise and that act on the world *)

Definition M (A : Type) : Type := world -> result A * world.

Definition ret {A : Type} (a : A) : M A := fun w => (ok a, w).

Definition throw {A : Type} (e : exn) : M A := fun w => (raise e, w).

Definition bind {A B : Type} (m : M A) (k : A -> M B) : M B :=
  fun w =>
    match m w with
    | (inl e, w') => (inl e, w')
    | (inr a, w') => k a w'
    end.

Definition lift {A : Type} (r : result A) : M A := fun w => (r, w).

(** [try: m except ...: h e] *)
Definition try_except {A : Type} (m : M A) (h : exn -> M A) : M A :=
  fun w =>
    match m w with
    | (inl e, w') => h e w'
    | (inr a, w') => (inr a, w')
    end.

Notation "x <- m ;; k" := (bind m (fun x => k))
  (at level 61, m at next level, right associativity).
Notation "' pat <- m ;; k" := (bind m (fun x => match x with pat => k end))
  (at level 61, pat pattern, m at next level, right associativity).

(** The value a run returns, and the world it leaves. *)
Definition outcome {A : Type} (m : M A) (w : world) : result A := fst (m w).
Definition after {A : Type} (m : M A) (w : world) : world := snd (m w).

(** The bodies of the insert requests among [rs], oldest first. *)
Fixpoint inserted_bodies (rs : list request) : list json :=
  match rs with
  | [] => []
  | instances_insert _ _ body :: rest => body :: inserted_bodies rest
  | _ :: rest => inserted_bodies rest
  end.

(** The request bodies the operations build as local values. *)

Definition default_database_instance_body (u : string) : json :=
  JObj [("name", JStr (DEFAULT_CLOUDSQL_FORMAT_STRING u));
        ("settings", JObj [("tier", JStr DEFAULT_2ND_GEN_TIER)])].

Definition default_source_body (name : string) (ip_address port
    database_version region : pyarg) : json :=
  JObj [("name", JStr name);
        ("databaseVersion", to_json database_version);
        ("region", to_json region);
        ("onPremisesConfiguration",
         JObj [("kind", JStr "sql#onPremisesConfiguration");
               ("hostPort", JStr (py_str ip_address ++ ":" ++ py_str port))])].

Definition default_replica_body (name : string) (master_instance_name
    dumpfile_path replica_user replica_pwd : pyarg) : json :=
  JObj [("name", JStr name);
        ("settings", JObj [("tier", JStr DEFAULT_2ND_GEN_TIER)]);
        ("databaseVersion", JStr DEFAULT_2ND_GEN_DB_VERSION);
        ("masterInstanceName", to_json master_instance_name);
        ("region", JStr DEFAULT_2ND_GEN_REGION);
        ("replicaConfiguration",
         JObj [("mysqlReplicaConfiguration",
                JObj [("dumpFilePath", to_json dumpfile_path);
                      ("username", to_json replica_user);
                      ("password", to_json replica_pwd)])])].

Definition instances_import_request_body (import_file_uri : pyarg) : json :=
  JObj [("importContext",
         JObj [("kind", JStr "sql#importContext");
               ("fileType", JStr "SQL");
               ("uri", to_json import_file_uri)])].

Section Operations.

Variable E : env.

(** [uuid.uuid4()], already turned into its string form. *)
Definition draw_uuid : M string :=
  fun w => (ok (uuid4 E (uuids_drawn w)),
            {| uuids_drawn := S (uuids_drawn w); wire := wire w |}).

(** [request.execute()] *)
Definition execute (r : request) : M json :=
  fun w => (remote E (wire w) r,
            {| uuids_drawn := uuids_drawn w; wire := wire w ++ [r] |}).

(** [credentials or default_credentials] *)
Definition cred_or (c : option credentials) (d : credentials) : credentials :=
  match c with
  | Some c' => c'
  | None => d
  end.

Definition build_sql_admin_service (creds : option credentials) : M service :=
  '(default_credentials, _) <- lift (google_auth_default E) ;;
  service <- lift (build_authorized_service E SQL_ADMIN_SERVICE
                     SQL_ADMIN_SERVICE_VERSION
                     (cred_or creds default_credentials)) ;;
  ret service.

Definition create_cloudsql_instance (database_instance_body : json)
    (project : pyarg) (creds : option credentials) : M json :=
  '(default_credentials, default_project) <- lift (google_auth_default E) ;;
  u <- draw_uuid ;;
  service <- build_sql_admin_service
               (Some (cred_or creds default_credentials)) ;;
  let request :=
    instances_insert service (arg_or project default_project)
      (json_or database_instance_body (default_database_instance_body u)) in
  response <- execute request ;;
  ret response.

(** [name or FORMAT.format(uuid.uuid4())]: the identifier is drawn only when
    the name is false. *)
Definition name_or (name : pyarg) (fmt : string -> string) : M string :=
  match name with
  | Some s => if arg_truthy name then ret s else u <- draw_uuid ;; ret (fmt u)
  | None => u <- draw_uuid ;; ret (fmt u)
  end.

Definition create_source_representation (ip_address port database_version
    region source_name : pyarg) (source_body : json) (project : pyarg)
    (creds : option credentials) : M json :=
  name <- name_or source_name DEFAULT_EXT_MASTER_FORMAT_STRING ;;
  response <- create_cloudsql_instance
                (json_or source_body
                   (default_source_body name ip_address port database_version
                      region))
                project creds ;;
  ret response.

Definition create_replica_instance (master_instance_name dumpfile_path
    replica_user replica_pwd replica_name : pyarg) (replica_body : json)
    (project : pyarg) (creds : option credentials) : M json :=
  name <- name_or replica_name DEFAULT_REPLICA_FORMAT_STRING ;;
  response <- create_cloudsql_instance
                (json_or replica_body
                   (default_replica_body name master_instance_name
                      dumpfile_path replica_user replica_pwd))
                project creds ;;
  ret response.

Definition import_sql_database (database_instance import_file_uri : pyarg)
    (project : pyarg) (creds : option credentials) : M json :=
  '(default_credentials, default_project) <- lift (google_auth_default E) ;;
  service <- build_sql_admin_service
               (Some (cred_or creds default_credentials)) ;;
  let request :=
    instances_import service (arg_or project default_project)
      database_instance (instances_import_request_body import_file_uri) in
  response <- execute request ;;
  ret response.

Definition is_sql_operation_done (operation : pyarg) (project : pyarg)
    (creds : option credentials) : M bool :=
  '(default_credentials, default_project) <- lift (google_auth_default E) ;;
  service <- build_sql_admin_service
               (Some (cred_or creds default_credentials)) ;;
  let request :=
    operations_get service (arg_or project default_project) operation in
  response <- execute request ;;
  status <- lift (py_getitem response "status") ;;
  ret (eq_str status "DONE").

(** The handler of [get_instance]: a 404 becomes a [NameError]; for the other
    two caught shapes the handler ends without raising, so the function
    returns [None]; any other class is not caught. *)
Definition get_instance_handler (instance : pyarg) (e : exn) : M json :=
  match e with
  | HttpError status =>
      if (status =? 404)%Z
      then throw (NameError ("Cloud SQL instance " ++ py_str instance
                             ++ " not found."))
      else ret JNull
  | HttpLib2Error => ret JNull
  | _ => throw e
  end.

Definition get_instance (instance : pyarg) (project : pyarg)
    (creds : option credentials) : M json :=
  '(default_credentials, default_project) <- lift (google_auth_default E) ;;
  service <- build_sql_admin_service
               (Some (cred_or creds default_credentials)) ;;
  let request :=
    instances_get service (arg_or project default_project) instance in
  try_except (execute request) (get_instance_handler instance).

Definition get_outgoing_ip_of_instance (instance : pyarg) (project : pyarg)
    (creds : option credentials) : M json :=
  response <- get_instance instance project creds ;;
  lift (outgoing_ip_of_response response).

Definition get_ip_and_service_account (instance : pyarg) (project : pyarg)
    (creds : option credentials) : M (json * json) :=
  response <- get_instance instance project creds ;;
  lift (ip_and_service_account_of_response response).

End Operations.

(** ** Vocabulary of the statements *)

(** [v[k1][k2]...] *)
Fixpoint get_path (v : json) (ks : list string) : result json :=
  match ks with
  | [] => ok v
  | k :: rest => x <~ py_getitem v k ;; get_path x rest
  end.

(** The credential lookup and the construction of the proxy both succeed:
    [dp] is the default project and [svc] the proxy obtained for [creds]. *)
Definition connects (E : env) (creds : option credentials) (svc : service)
    (dp : pyarg) : Prop :=
  exists dc,
    google_auth_default E = ok (dc, dp) /\
    build_authorized_service E SQL_ADMIN_SERVICE SQL_ADMIN_SERVICE_VERSION
      (cred_or creds dc) = ok svc.

(** The world after one more request has been executed. *)
Definition sent (w : world) (r : request) : world :=
  {| uuids_drawn := uuids_drawn w; wire := wire w ++ [r] |}.

(** The world after one more identifier has been drawn. *)
Definition drawn (w : world) : world :=
  {| uuids_drawn := S (uuids_drawn w); wire := wire w |}.

(** The name put in a default body, and the world once it is chosen. *)
Definition chosen_name (E : env) (name : pyarg) (fmt : string -> string)
    (w : world) : string :=
  if arg_truthy name then py_str name else fmt (uuid4 E (uuids_drawn w)).

Definition named (name : pyarg) (w : world) : world :=
  if arg_truthy name then w else drawn w.

(** Running [m] from [w] executes exactly the request [r]. *)
Definition sends {A : Type} (m : M A) (w : world) (r : request) : Prop :=
  wire (after m w) = (wire w ++ [r])%list.

(** An address entry is tagged: it is a [dict] with a ['type'] field. *)
Definition tagged (x : json) : Prop :=
  exists t, py_getitem x "type" = ok t.

(** An address entry is tagged ['OUTGOING']. *)
Definition is_outgoing (x : json) : bool :=
  match py_getitem x "type" with
  | inr t => eq_str t "OUTGOING"
  | inl _ => false
  end.

(** [msg] contains [part]. *)
Definition contains (msg part : string) : Prop :=
  exists before behind, msg = before ++ part ++ behind.

(** The two caught shapes of a transport error. *)
Definition caught (e : exn) : bool :=
  match e with
  | HttpError _ | HttpLib2Error => true
  | _ => false
  end.

(** ** A concrete outside world, for running the code *)

Definition demo_service (c : credentials) : service :=
  {| service_name := SQL_ADMIN_SERVICE;
     service_version := SQL_ADMIN_SERVICE_VERSION;
     service_credentials := c |}.

Definition demo_uuid (n : nat) : string :=
  "6f1c2a34-0000-4000-8000-00000000000" ++ String (ascii_of_nat (48 + n)) "".

(** An environment whose remote service gives the same answer to every
    request. *)
Definition demo_env (answer : result json) : env :=
  {| google_auth_default := ok (Credentials "adc", Some "demo-project");
     build_authorized_service := fun _ _ c => ok (demo_service c);
     uuid4 := demo_uuid;
     remote := fun _ _ => answer |}.

Definition demo_svc : service := demo_service (Credentials "adc").

(** The address list of the specification's example. *)
Definition two_addresses : json :=
  JObj [(IP_ADDRESSES,
         JArr [JObj [("type", JStr "INCOMING"); (IP_ADDRESS, JStr "1.1.1.1")];
               JObj [("type", JStr "OUTGOING"); (IP_ADDRESS, JStr "2.2.2.2")]])].

(** A description with an address list and no outgoing entry. *)
Definition no_outgoing : json :=
  JObj [(IP_ADDRESSES,
         JArr [JObj [("type", JStr "PRIMARY"); (IP_ADDRESS, JStr "10.0.0.1")]]);
        (SERVICE_ACCOUNT_EMAIL, JStr "sa@demo-project.iam.gserviceaccount.com")].

(** ** Further vocabulary and worlds *)

(** Running [m] from [w] raises [e] and executes no request. *)
Definition fails_unsent {A : Type} (m : M A) (w : world) (e : exn) : Prop :=
  outcome m w = raise e /\ wire (after m w) = wire w.

(** The account half of the lenient reader's pair. *)
Definition account_of (fields : list (string * json)) : json :=
  match dict_get fields SERVICE_ACCOUNT_EMAIL with
  | Some account => account
  | None => JNull
  end.

(** Each of the eight requesting operations, run from [w] with these credentials and this
    project and with any other arguments, raises [e] and executes no
    request. *)
Definition every_operation_fails_unsent (E : env) (creds : option credentials)
    (project : pyarg) (w : world) (e : exn) : Prop :=
  (forall body, fails_unsent (create_cloudsql_instance E body project creds) w e)
  /\ (forall ip_address port database_version region source_name source_body,
        fails_unsent
          (create_source_representation E ip_address port database_version
             region source_name source_body project creds) w e)
  /\ (forall master_instance_name dumpfile_path replica_user replica_pwd
        replica_name replica_body,
        fails_unsent
          (create_replica_instance E master_instance_name dumpfile_path
             replica_user replica_pwd replica_name replica_body project creds)
          w e)
  /\ (forall database_instance import_file_uri,
        fails_unsent
          (import_sql_database E database_instance import_file_uri project
             creds) w e)
  /\ (forall operation,
        fails_unsent (is_sql_operation_done E operation project creds) w e)
  /\ (forall instance,
        fails_unsent (get_instance E instance project creds) w e
        /\ fails_unsent (get_outgoing_ip_of_instance E instance project creds)
             w e
        /\ fails_unsent (get_ip_and_service_account E instance project creds)
             w e).

(** An environment in which [google.auth.default()] raises [e]. *)
Definition offline_env (e : exn) : env :=
  {| google_auth_default := raise e;
     build_authorized_service := fun _ _ c => ok (demo_service c);
     uuid4 := demo_uuid;
     remote := fun _ _ => ok JNull |}.

(** An environment in which the proxy cannot be built: the helper raises
    [e]. *)
Definition unbuilt_env (e : exn) : env :=
  {| google_auth_default := ok (Credentials "adc", Some "demo-project");
     build_authorized_service := fun _ _ _ => raise e;
     uuid4 := demo_uuid;
     remote := fun _ _ => ok JNull |}.

(** ** How the operations run once the proxy is there *)

Ltac run_connected H :=
  let dc := fresh "dc" in
  let Ha := fresh "Hauth" in
  let Hb := fresh "Hbuild" in
  destruct H as (dc & Ha & Hb);
  unfold build_sql_admin_service;
  unfold bind, lift, ret, throw, execute, draw_uuid, try_except;
  unfold ok, raise in *;
  repeat (rewrite ?Ha, ?Hb; cbv beta iota; cbn [cred_or uuids_drawn wire]).

Section Runs.

Variable E : env.
Variable creds : option credentials.
Variable svc : service.
Variable dp : pyarg.
Hypothesis Hc : connects E creds svc dp.

Lemma build_sql_admin_service_run (dc : credentials) (w : world) :
  google_auth_default E = ok (dc, dp) ->
  build_sql_admin_service E (Some (cred_or creds dc)) w = (ok svc, w).
Proof.
  intros Ha. destruct Hc as (dc' & Ha' & Hb).
  rewrite Ha in Ha'. injection Ha' as <-.
  unfold build_sql_admin_service, bind, lift, ret. rewrite Ha. cbn [cred_or].
  rewrite Hb. reflexivity.
Qed.

(** [create_cloudsql_instance] draws one identifier and executes one insert,
    whose body is the given one when it is true and the default one
    otherwise. *)
Lemma create_cloudsql_instance_run (body : json) (project : pyarg) (w : world) :
  let req :=
    instances_insert svc (arg_or project dp)
      (json_or body (default_database_instance_body (uuid4 E (uuids_drawn w))))
  in
  create_cloudsql_instance E body project creds w
  = (remote E (wire w) req, sent (drawn w) req).
Proof.
  intros req. subst req. revert Hc. intros H.
  unfold create_cloudsql_instance. run_connected H.
  unfold sent, drawn. cbn [uuids_drawn wire].
  match goal with |- context [remote E ?l ?r] => destruct (remote E l r) end;
    reflexivity.
Qed.

Lemma name_or_given (s : string) (fmt : string -> string) (w : world) :
  arg_truthy (Some s) = true ->
  name_or E (Some s) fmt w = (ok s, w).
Proof.
  intros H. unfold name_or. rewrite H. reflexivity.
Qed.

Lemma name_or_omitted (name : pyarg) (fmt : string -> string) (w : world) :
  arg_truthy name = false ->
  name_or E name fmt w = (ok (fmt (uuid4 E (uuids_drawn w))), drawn w).
Proof.
  intros H. unfold name_or. destruct name as [s|]; [rewrite H|]; reflexivity.
Qed.

Lemma name_or_run (name : pyarg) (fmt : string -> string) (w : world) :
  name_or E name fmt w = (ok (chosen_name E name fmt w), named name w).
Proof.
  unfold chosen_name, named. destruct (arg_truthy name) eqn:Ht.
  - destruct name as [s|]; [|discriminate]. now apply name_or_given.
  - now apply name_or_omitted.
Qed.

Lemma bind_ret_same {A : Type} (m : M A) (w : world) :
  (x <- m ;; ret x) w = m w.
Proof.
  unfold bind, ret, ok. destruct (m w) as [[e | a] w']; reflexivity.
Qed.

(** The two wrappers choose a name, then hand either the given body or their
    default body to [create_cloudsql_instance]. *)
Lemma create_source_representation_run (ip_address port database_version
    region source_name : pyarg) (source_body : json) (project : pyarg)
    (w : world) :
  create_source_representation E ip_address port database_version region
    source_name source_body project creds w
  = create_cloudsql_instance E
      (json_or source_body
         (default_source_body
            (chosen_name E source_name DEFAULT_EXT_MASTER_FORMAT_STRING w)
            ip_address port database_version region))
      project creds (named source_name w).
Proof.
  unfold create_source_representation.
  unfold bind at 1. rewrite name_or_run. apply bind_ret_same.
Qed.

Lemma create_replica_instance_run (master_instance_name dumpfile_path
    replica_user replica_pwd replica_name : pyarg) (replica_body : json)
    (project : pyarg) (w : world) :
  create_replica_instance E master_instance_name dumpfile_path replica_user
    replica_pwd replica_name replica_body project creds w
  = create_cloudsql_instance E
      (json_or replica_body
         (default_replica_body
            (chosen_name E replica_name DEFAULT_REPLICA_FORMAT_STRING w)
            master_instance_name dumpfile_path replica_user replica_pwd))
      project creds (named replica_name w).
Proof.
  unfold create_replica_instance.
  unfold bind at 1. rewrite name_or_run. apply bind_ret_same.
Qed.

Lemma import_sql_database_run (database_instance import_file_uri project : pyarg)
    (w : world) :
  let req :=
    instances_import svc (arg_or project dp) database_instance
      (instances_import_request_body import_file_uri) in
  import_sql_database E database_instance import_file_uri project creds w
  = (remote E (wire w) req, sent w req).
Proof.
  intros req. subst req. revert Hc. intros H.
  unfold import_sql_database. run_connected H. unfold sent.
  match goal with |- context [remote E ?l ?r] => destruct (remote E l r) end;
    reflexivity.
Qed.

(** [is_sql_operation_done] executes one [operations.get] and compares the
    ['status'] entry of the answer with ['DONE']. *)
Lemma is_sql_operation_done_run (operation project : pyarg) (w : world) :
  let req := operations_get svc (arg_or project dp) operation in
  is_sql_operation_done E operation project creds w
  = (response <~ remote E (wire w) req ;;
     status <~ py_getitem response "status" ;;
     ok (eq_str status "DONE"),
     sent w req).
Proof.
  intros req. subst req. revert Hc. intros H.
  unfold is_sql_operation_done. run_connected H. unfold sent, and_then.
  match goal with |- context [remote E ?l ?r] => destruct (remote E l r) end;
    [reflexivity|].
  match goal with |- context [py_getitem ?v ?k] => destruct (py_getitem v k) end;
    reflexivity.
Qed.

(** [get_instance] executes one [instances.get]; what it makes of the answer
    is decided by the handler. *)
Lemma get_instance_run (instance project : pyarg) (w : world) :
  let req := instances_get svc (arg_or project dp) instance in
  get_instance E instance project creds w
  = match remote E (wire w) req with
    | inl e => get_instance_handler instance e (sent w req)
    | inr response => (ok response, sent w req)
    end.
Proof.
  intros req. subst req. revert Hc. intros H.
  unfold get_instance. run_connected H. unfold sent.
  match goal with |- context [remote E ?l ?r] => destruct (remote E l r) end;
    reflexivity.
Qed.

End Runs.

(** The two readers are the fetch followed by the reading of the answer. *)
Lemma get_outgoing_ip_of_instance_run (E : env) (instance project : pyarg)
    (creds : option credentials) (w : world) :
  outcome (get_outgoing_ip_of_instance E instance project creds) w
  = (response <~ outcome (get_instance E instance project creds) w ;;
     outgoing_ip_of_response response).
Proof.
  unfold outcome, get_outgoing_ip_of_instance, bind, lift, and_then.
  destruct (get_instance E instance project creds w) as [[e | d] w'];
    reflexivity.
Qed.

Lemma get_ip_and_service_account_run (E : env) (instance project : pyarg)
    (creds : option credentials) (w : world) :
  outcome (get_ip_and_service_account E instance project creds) w
  = (response <~ outcome (get_instance E instance project creds) w ;;
     ip_and_service_account_of_response response).
Proof.
  unfold outcome, get_ip_and_service_account, bind, lift, and_then.
  destruct (get_instance E instance project creds w) as [[e | d] w'];
    reflexivity.
Qed.

(** ** Scanning the address list *)

Lemma getitem_truthy (x : json) (k : string) (v : json) :
  py_getitem x k = ok v -> truthy x = true.
Proof.
  destruct x as [ | b | n | t | items | fields]; cbn; try discriminate.
  destruct fields as [| kv rest]; [discriminate | reflexivity].
Qed.

Lemma getitem_dict (x : json) (k : string) (v : json) :
  py_getitem x k = ok v -> exists fields, x = JObj fields /\ dict_get fields k = Some v.
Proof.
  destruct x as [ | b | n | t | items | fields]; cbn; try discriminate.
  destruct (dict_get fields k) as [v' |] eqn:Hk; [|discriminate].
  intros [= <-]. now exists fields.
Qed.

(** On tagged entries the scan is a [find]. *)
Lemma next_outgoing_find (items : list json) :
  Forall tagged items ->
  next_outgoing items
  = match find is_outgoing items with
    | Some o => ok o
    | None => raise StopIteration
    end.
Proof.
  induction 1 as [| x rest [t Ht] _ IH]; [reflexivity|].
  cbn [next_outgoing find]. unfold is_outgoing, and_then.
  rewrite Ht. unfold ok. destruct (eq_str t "OUTGOING"); [reflexivity | exact IH].
Qed.

(** What the scan yields is an entry of the list, tagged ['OUTGOING'], and a
    non-empty [dict]. *)
Lemma next_outgoing_ok (items : list json) (o : json) :
  next_outgoing items = ok o ->
  In o items /\ is_outgoing o = true /\ truthy o = true.
Proof.
  induction items as [| x rest IH]; [discriminate|].
  cbn [next_outgoing]. unfold and_then.
  destruct (py_getitem x "type") as [e | t] eqn:Ht; [discriminate|].
  destruct (eq_str t "OUTGOING") eqn:Hout.
  - intros [= <-]. repeat split.
    + now left.
    + unfold is_outgoing. now rewrite Ht.
    + exact (getitem_truthy _ _ _ Ht).
  - intros H. destruct (IH H) as (Hin & Ho & Htr). repeat split; auto.
    now right.
Qed.

(** The scan raises nothing but [StopIteration], [TypeError] and
    [KeyError('type')]. *)
Lemma next_outgoing_raises (items : list json) (e : exn) :
  next_outgoing items = raise e ->
  e = StopIteration \/ e = TypeError \/ e = KeyError "type".
Proof.
  induction items as [| x rest IH]; cbn [next_outgoing].
  - intros [= <-]. now left.
  - unfold and_then.
    destruct (py_getitem x "type") as [e' | t] eqn:Ht.
    + intros [= <-]. right.
      destruct x as [ | b | n | u | l | fields]; cbn in Ht;
        try (injection Ht as <-; now left).
      destruct (dict_get fields "type"); [discriminate|].
      injection Ht as <-. now right.
    + destruct (eq_str t "OUTGOING"); [discriminate | exact IH].
Qed.

(** ** The strict reader *)

Lemma strict_field_absent (fields : list (string * json)) :
  dict_get fields IP_ADDRESSES = None ->
  outgoing_ip_of_response (JObj fields)
  = raise (KeyError "ipAddresses not found in response.").
Proof.
  intros H. unfold outgoing_ip_of_response, py_in, dict_has. now rewrite H.
Qed.

Lemma strict_list_present (fields : list (string * json)) (items : list json) :
  dict_get fields IP_ADDRESSES = Some (JArr items) ->
  outgoing_ip_of_response (JObj fields)
  = (o <~ next_outgoing items ;; py_getitem o IP_ADDRESS).
Proof.
  intros H. unfold outgoing_ip_of_response, py_in, dict_has, py_getitem.
  rewrite H. cbn [and_then ok py_iter].
  destruct (next_outgoing items) as [e | o] eqn:Hn; [reflexivity|].
  cbn [and_then]. destruct (next_outgoing_ok _ _ Hn) as (_ & _ & ->).
  reflexivity.
Qed.

(** With an address list of tagged entries none of which is outgoing, the
    strict reader ends in [StopIteration]. *)
Lemma strict_no_outgoing (fields : list (string * json)) (items : list json) :
  dict_get fields IP_ADDRESSES = Some (JArr items) ->
  Forall tagged items ->
  find is_outgoing items = None ->
  outgoing_ip_of_response (JObj fields) = raise StopIteration.
Proof.
  intros Hl Ht Hf. rewrite (strict_list_present _ _ Hl).
  rewrite (next_outgoing_find _ Ht), Hf. reflexivity.
Qed.

Lemma getitem_raises (v : json) (k : string) (e : exn) :
  py_getitem v k = raise e -> e = TypeError \/ e = KeyError k.
Proof.
  destruct v as [ | b | n | t | items | fields]; cbn;
    try (intros [= <-]; now left).
  destruct (dict_get fields k); [discriminate|].
  intros [= <-]. now right.
Qed.

Lemma in_raises (k : string) (v : json) (e : exn) :
  py_in k v = raise e -> e = TypeError.
Proof.
  destruct v; cbn; try discriminate; now intros [= <-].
Qed.

Lemma iter_raises (v : json) (e : exn) :
  py_iter v = raise e -> e = TypeError.
Proof.
  destruct v; cbn; try discriminate; now intros [= <-].
Qed.

(** The statement [raise KeyError('No outgoing IP address found.')] of the
    strict reader is never reached: whatever the answer, the reader does not
    end in that error. *)
Lemma strict_never_reports_no_outgoing (response : json) :
  outgoing_ip_of_response response
  <> raise (KeyError "No outgoing IP address found.").
Proof.
  unfold outgoing_ip_of_response, and_then.
  destruct (py_in IP_ADDRESSES response) as [e | present] eqn:Hin.
  - apply in_raises in Hin. subst e. discriminate.
  - destruct present; [|discriminate].
    destruct (py_getitem response IP_ADDRESSES) as [e | addresses] eqn:Hg.
    + destruct (getitem_raises _ _ _ Hg) as [-> | ->]; discriminate.
    + destruct (py_iter addresses) as [e | items] eqn:Hi.
      * apply iter_raises in Hi. subst e. discriminate.
      * destruct (next_outgoing items) as [e | o] eqn:Hn.
        -- destruct (next_outgoing_raises _ _ Hn) as [-> | [-> | ->]];
             discriminate.
        -- destruct (next_outgoing_ok _ _ Hn) as (_ & _ & ->).
           destruct (py_getitem o IP_ADDRESS) as [e | ip] eqn:Ho;
             [|discriminate].
           destruct (getitem_raises _ _ _ Ho) as [-> | ->]; discriminate.
Qed.

(** ** The lenient reader *)

(** Without an address list the lenient reader does not raise: the address
    half is [None] and the account half is the field, or [None]. *)
Lemma lenient_field_absent (fields : list (string * json)) :
  dict_get fields IP_ADDRESSES = None ->
  ip_and_service_account_of_response (JObj fields)
  = ok (JNull,
        match dict_get fields SERVICE_ACCOUNT_EMAIL with
        | Some account => account
        | None => JNull
        end).
Proof.
  intros H.
  unfold ip_and_service_account_of_response, py_in, dict_has, py_getitem.
  rewrite H. cbn [and_then ok].
  destruct (dict_get fields SERVICE_ACCOUNT_EMAIL); reflexivity.
Qed.

Lemma lenient_list_present (fields : list (string * json)) (items : list json) :
  dict_get fields IP_ADDRESSES = Some (JArr items) ->
  ip_and_service_account_of_response (JObj fields)
  = (o <~ next_outgoing items ;;
     ip <~ py_getitem o IP_ADDRESS ;;
     ok (ip,
         match dict_get fields SERVICE_ACCOUNT_EMAIL with
         | Some account => account
         | None => JNull
         end)).
Proof.
  intros H.
  unfold ip_and_service_account_of_response, py_in, dict_has, py_getitem.
  rewrite H. cbn [and_then ok py_iter].
  destruct (next_outgoing items) as [e | o] eqn:Hn; [reflexivity|].
  cbn [and_then]. destruct (next_outgoing_ok _ _ Hn) as (_ & _ & ->).
  destruct o as [ | b | n | t | l | ofields]; try reflexivity.
  destruct (dict_get ofields IP_ADDRESS); [|reflexivity].
  cbn [and_then]. destruct (dict_get fields SERVICE_ACCOUNT_EMAIL); reflexivity.
Qed.

(** With an address list of tagged entries none of which is outgoing, the
    lenient reader ends in [StopIteration] as well. *)
Lemma lenient_no_outgoing (fields : list (string * json)) (items : list json) :
  dict_get fields IP_ADDRESSES = Some (JArr items) ->
  Forall tagged items ->
  find is_outgoing items = None ->
  ip_and_service_account_of_response (JObj fields) = raise StopIteration.
Proof.
  intros Hl Ht Hf. rewrite (lenient_list_present _ _ Hl).
  rewrite (next_outgoing_find _ Ht), Hf. reflexivity.
Qed.

(** Where the strict reader returns, the lenient one returns the same
    address. *)
Lemma lenient_agrees_with_strict (response ip : json) :
  outgoing_ip_of_response response = ok ip ->
  exists account, ip_and_service_account_of_response response = ok (ip, account).
Proof.
  unfold outgoing_ip_of_response, ip_and_service_account_of_response, and_then.
  destruct (py_in IP_ADDRESSES response) as [e | present]; [discriminate|].
  destruct present; [|discriminate].
  destruct (py_getitem response IP_ADDRESSES) as [e | addresses] eqn:Hg;
    [discriminate|].
  destruct (getitem_dict _ _ _ Hg) as (fields & -> & _).
  destruct (py_iter addresses) as [e | items]; [discriminate|].
  destruct (next_outgoing items) as [e | o]; [discriminate|].
  destruct (truthy o); [|discriminate].
  intros ->. cbn [py_in ok]. unfold py_getitem, dict_has.
  destruct (dict_get fields SERVICE_ACCOUNT_EMAIL) as [account |];
    eexists; reflexivity.
Qed.

(** ** Fetching an instance description *)

Section Fetch.

Variable E : env.
Variable creds : option credentials.
Variable svc : service.
Variable dp : pyarg.
Hypothesis Hc : connects E creds svc dp.

Variables instance project : pyarg.
Variable w : world.

Abbreviation req := (instances_get svc (arg_or project dp) instance).

Lemma get_instance_found (response : json) :
  remote E (wire w) req = ok response ->
  outcome (get_instance E instance project creds) w = ok response.
Proof.
  intros H. unfold outcome.
  rewrite (get_instance_run E creds svc dp Hc). now rewrite H.
Qed.

(** A 404 of the transport becomes a [NameError] that names the instance. *)
Lemma get_instance_not_found :
  remote E (wire w) req = raise (HttpError 404) ->
  exists msg,
    outcome (get_instance E instance project creds) w = raise (NameError msg)
    /\ msg = "Cloud SQL instance " ++ py_str instance ++ " not found."
    /\ contains msg (py_str instance).
Proof.
  intros H. eexists. split; [|split; [reflexivity|]].
  - unfold outcome.
    rewrite (get_instance_run E creds svc dp Hc). unfold raise in *. rewrite H.
    reflexivity.
  - exists "Cloud SQL instance ", " not found.". reflexivity.
Qed.

(** An error that is neither an [HttpError] nor an [HttpLib2Error] is not
    caught. *)
Lemma get_instance_uncaught (e : exn) :
  caught e = false ->
  remote E (wire w) req = raise e ->
  outcome (get_instance E instance project creds) w = raise e.
Proof.
  intros Hk H. unfold outcome.
  rewrite (get_instance_run E creds svc dp Hc). unfold raise in *. rewrite H.
  destruct e; try discriminate; reflexivity.
Qed.

(** A caught error other than a 404 ends the handler without a [raise]:
    the function returns [None]. *)
Lemma get_instance_swallowed (e : exn) :
  caught e = true ->
  e <> HttpError 404 ->
  remote E (wire w) req = raise e ->
  outcome (get_instance E instance project creds) w = ok JNull.
Proof.
  intros Hk Hne H. unfold outcome.
  rewrite (get_instance_run E creds svc dp Hc). unfold raise in *. rewrite H.
  destruct e as [ | | | | status | | ]; try discriminate; [|reflexivity].
  cbn [get_instance_handler].
  destruct (status =? 404)%Z eqn:Hs; [|reflexivity].
  apply Z.eqb_eq in Hs. now subst status.
Qed.

(** A [NameError] leaves [get_instance] only for a 404 of the transport, or
    when the transport itself raised that [NameError]. *)
Lemma get_instance_name_error (msg : string) :
  outcome (get_instance E instance project creds) w = raise (NameError msg) ->
  remote E (wire w) req = raise (HttpError 404)
  \/ remote E (wire w) req = raise (NameError msg).
Proof.
  unfold outcome. rewrite (get_instance_run E creds svc dp Hc).
  unfold raise. destruct (remote E (wire w) req) as [e |]; [|discriminate].
  destruct e as [ | | | | status | | ]; cbn; try discriminate.
  - intros [= ->]. now right.
  - destruct (status =? 404)%Z eqn:Hs; [|discriminate].
    apply Z.eqb_eq in Hs. subst status. now left.
Qed.

End Fetch.

(** ** Choosing between a given body and the default one *)

Lemma json_or_true (body default : json) :
  truthy body = true -> json_or body default = body.
Proof.
  intros H. unfold json_or. now rewrite H.
Qed.

Lemma json_or_false (body default : json) :
  truthy body = false -> json_or body default = default.
Proof.
  intros H. unfold json_or. now rewrite H.
Qed.

Lemma wire_named (name : pyarg) (w : world) :
  wire (named name w) = wire w.
Proof.
  unfold named. destruct (arg_truthy name); reflexivity.
Qed.

Lemma eq_str_true (v : json) (s : string) :
  eq_str v s = true <-> v = JStr s.
Proof.
  destruct v as [ | b | n | t | items | fields]; cbn;
    try (split; discriminate).
  rewrite String.eqb_eq. split; [now intros -> | now intros [= ->]].
Qed.

Section Sending.

Variable E : env.
Variable creds : option credentials.
Variable svc : service.
Variable dp : pyarg.
Hypothesis Hc : connects E creds svc dp.

(** What [create_cloudsql_instance] puts on the wire and what it returns. *)
Lemma create_cloudsql_instance_sends (body : json) (project : pyarg)
    (w : world) :
  let req :=
    instances_insert svc (arg_or project dp)
      (json_or body (default_database_instance_body (uuid4 E (uuids_drawn w))))
  in
  sends (create_cloudsql_instance E body project creds) w req
  /\ outcome (create_cloudsql_instance E body project creds) w
     = remote E (wire w) req.
Proof.
  intros req. unfold sends, after, outcome.
  rewrite (create_cloudsql_instance_run E creds svc dp Hc). fold req.
  split; reflexivity.
Qed.

(** A wrapper that hands [given or default] to [create_cloudsql_instance],
    after choosing a name, executes one insert with that very body: the
    default body of [create_cloudsql_instance] never replaces it, because the
    wrapper's default body is not empty. *)
Lemma wrapper_sends (m : M json) (given default : json) (name project : pyarg)
    (w : world) :
  m w = create_cloudsql_instance E (json_or given default) project creds
          (named name w) ->
  truthy default = true ->
  let req := instances_insert svc (arg_or project dp) (json_or given default) in
  sends m w req /\ outcome m w = remote E (wire w) req.
Proof.
  intros Hm Ht req.
  destruct (create_cloudsql_instance_sends (json_or given default) project
              (named name w)) as [Hs Ho].
  assert (Hchain : forall d, json_or (json_or given default) d
                             = json_or given default).
  { intros d. apply json_or_true. unfold json_or.
    destruct (truthy given) eqn:Hg; [exact Hg | exact Ht]. }
  rewrite Hchain in Hs, Ho. rewrite wire_named in Ho.
  unfold sends, after, outcome in *. rewrite Hm.
  rewrite wire_named in Hs. split; [exact Hs | exact Ho].
Qed.

Lemma create_source_representation_sends (ip_address port database_version
    region source_name : pyarg) (source_body : json) (project : pyarg)
    (w : world) :
  let m :=
    create_source_representation E ip_address port database_version region
      source_name source_body project creds in
  let req :=
    instances_insert svc (arg_or project dp)
      (json_or source_body
         (default_source_body
            (chosen_name E source_name DEFAULT_EXT_MASTER_FORMAT_STRING w)
            ip_address port database_version region)) in
  sends m w req /\ outcome m w = remote E (wire w) req.
Proof.
  intros m req.
  apply (wrapper_sends m _ _ source_name project w); [|reflexivity].
  apply create_source_representation_run.
Qed.

Lemma create_replica_instance_sends (master_instance_name dumpfile_path
    replica_user replica_pwd replica_name : pyarg) (replica_body : json)
    (project : pyarg) (w : world) :
  let m :=
    create_replica_instance E master_instance_name dumpfile_path replica_user
      replica_pwd replica_name replica_body project creds in
  let req :=
    instances_insert svc (arg_or project dp)
      (json_or replica_body
         (default_replica_body
            (chosen_name E replica_name DEFAULT_REPLICA_FORMAT_STRING w)
            master_instance_name dumpfile_path replica_user replica_pwd)) in
  sends m w req /\ outcome m w = remote E (wire w) req.
Proof.
  intros m req.
  apply (wrapper_sends m _ _ replica_name project w); [|reflexivity].
  apply create_replica_instance_run.
Qed.

Lemma import_sql_database_sends (database_instance import_file_uri
    project : pyarg) (w : world) :
  let m :=
    import_sql_database E database_instance import_file_uri project creds in
  let req :=
    instances_import svc (arg_or project dp) database_instance
      (instances_import_request_body import_file_uri) in
  sends m w req /\ outcome m w = remote E (wire w) req.
Proof.
  intros m req. unfold sends, after, outcome. subst m.
  rewrite (import_sql_database_run E creds svc dp Hc). fold req.
  split; reflexivity.
Qed.

End Sending.

(** ** Properties *)

(** C1. The strict reader on a description whose address list has no outgoing
    entry: the run ends in [StopIteration], raised by [next], and not in the
    [KeyError] the docstring announces; the first half of the claim (no
    address list: [KeyError] naming the field) is [strict_field_absent]. *)
Theorem C1_strict_no_outgoing_stop_iteration :
  outcome (get_outgoing_ip_of_instance (demo_env (ok no_outgoing))
             (Some "db-1") None None) world0
  = raise StopIteration
  /\ outcome (get_outgoing_ip_of_instance (demo_env (ok (JObj [])))
                (Some "db-1") None None) world0
     = raise (KeyError "ipAddresses not found in response.").
Proof.
  split; reflexivity.
Qed.

(** C2. The lenient reader on a description whose address list has no
    outgoing entry: the run raises [StopIteration] instead of returning the
    pair with an absent address; without an address list it does return
    ([lenient_field_absent]). *)
Theorem C2_lenient_no_outgoing_stop_iteration :
  outcome (get_ip_and_service_account (demo_env (ok no_outgoing))
             (Some "db-1") None None) world0
  = raise StopIteration
  /\ outcome (get_ip_and_service_account (demo_env (ok (JObj [])))
                (Some "db-1") None None) world0
     = ok (JNull, JNull).
Proof.
  split; reflexivity.
Qed.

(** C3. [get_instance] when the transport raises an [HttpError] with status
    500, or an [HttpLib2Error]: the handler catches it and raises nothing, so
    the call returns [None] and the error does not reach the caller; the 404
    case does become a [NameError] naming the instance
    ([get_instance_not_found]). *)
Theorem C3_get_instance_swallows_transport_error :
  outcome (get_instance (demo_env (raise (HttpError 500)))
             (Some "db-1") None None) world0
  = ok JNull
  /\ outcome (get_instance (demo_env (raise HttpLib2Error))
                (Some "db-1") None None) world0
     = ok JNull
  /\ outcome (get_instance (demo_env (raise (HttpError 404)))
                (Some "db-1") None None) world0
     = raise (NameError "Cloud SQL instance db-1 not found.").
Proof.
  repeat split; reflexivity.
Qed.

(** C7. When the fetched description has an address list of tagged entries
    and [o] is the first of them tagged ['OUTGOING'],
    [get_outgoing_ip_of_instance] returns [o['ipAddress']]. *)
Theorem C7_first_outgoing_address (E : env) (instance project : pyarg)
    (creds : option credentials) (w : world)
    (fields : list (string * json)) (items : list json) (o ip : json) :
  outcome (get_instance E instance project creds) w = ok (JObj fields) ->
  dict_get fields IP_ADDRESSES = Some (JArr items) ->
  Forall tagged items ->
  find is_outgoing items = Some o ->
  py_getitem o IP_ADDRESS = ok ip ->
  outcome (get_outgoing_ip_of_instance E instance project creds) w = ok ip.
Proof.
  intros Hfetch Hlist Htag Hfirst Hip.
  rewrite get_outgoing_ip_of_instance_run, Hfetch. cbn [and_then ok].
  rewrite (strict_list_present _ _ Hlist), (next_outgoing_find _ Htag), Hfirst.
  exact Hip.
Qed.

(** The example of the specification: INCOMING 1.1.1.1 then OUTGOING 2.2.2.2
    gives 2.2.2.2. *)
Lemma C7_first_outgoing_address_example :
  outcome (get_outgoing_ip_of_instance (demo_env (ok two_addresses))
             (Some "db-1") None None) world0
  = ok (JStr "2.2.2.2").
Proof.
  apply (C7_first_outgoing_address (demo_env (ok two_addresses))
           (Some "db-1") None None world0
           [(IP_ADDRESSES,
             JArr [JObj [("type", JStr "INCOMING"); (IP_ADDRESS, JStr "1.1.1.1")];
                   JObj [("type", JStr "OUTGOING"); (IP_ADDRESS, JStr "2.2.2.2")]])]
           [JObj [("type", JStr "INCOMING"); (IP_ADDRESS, JStr "1.1.1.1")];
            JObj [("type", JStr "OUTGOING"); (IP_ADDRESS, JStr "2.2.2.2")]]
           (JObj [("type", JStr "OUTGOING"); (IP_ADDRESS, JStr "2.2.2.2")])).
  - reflexivity.
  - reflexivity.
  - repeat constructor; eexists; reflexivity.
  - reflexivity.
  - reflexivity.
Defined.

(** C9. Whenever [get_outgoing_ip_of_instance] returns an address,
    [get_ip_and_service_account] run from the same world returns a pair whose
    first component is that address. *)
Theorem C9_lenient_agrees_with_strict (E : env) (instance project : pyarg)
    (creds : option credentials) (w : world) (ip : json) :
  outcome (get_outgoing_ip_of_instance E instance project creds) w = ok ip ->
  exists account,
    outcome (get_ip_and_service_account E instance project creds) w
    = ok (ip, account).
Proof.
  rewrite get_outgoing_ip_of_instance_run, get_ip_and_service_account_run.
  destruct (outcome (get_instance E instance project creds) w)
    as [e | response]; [discriminate|].
  cbn [and_then]. apply lenient_agrees_with_strict.
Qed.

Lemma C9_lenient_agrees_with_strict_example :
  exists account,
    outcome (get_ip_and_service_account (demo_env (ok two_addresses))
               (Some "db-1") None None) world0
    = ok (JStr "2.2.2.2", account).
Proof.
  apply (C9_lenient_agrees_with_strict (demo_env (ok two_addresses))
           (Some "db-1") None None world0 (JStr "2.2.2.2")).
  reflexivity.
Defined.

(** C4, as stated, fails on a status document without a ['status'] field:
    the lookup raises [KeyError('status')]; the call does not return false. *)
Lemma C4_absent_status_raises :
  outcome (is_sql_operation_done (demo_env (ok (JObj [("name", JStr "op-1")])))
             (Some "op-1") None None) world0
  = raise (KeyError "status")
  /\ outcome (is_sql_operation_done (demo_env (ok (JObj [("name", JStr "op-1")])))
                (Some "op-1") None None) world0
     <> ok false.
Proof.
  split; [reflexivity | discriminate].
Qed.

(** C4, amended. For a status document (a [dict]) answered by the service,
    [is_sql_operation_done] returns true exactly when the ['status'] field is
    the string ['DONE'], returns false for every other value of the field, and
    raises [KeyError('status')] when the field is absent. *)
Theorem C4_done_iff_status_DONE (E : env) (creds : option credentials)
    (svc : service) (dp operation project : pyarg) (w : world)
    (fields : list (string * json)) :
  connects E creds svc dp ->
  remote E (wire w) (operations_get svc (arg_or project dp) operation)
  = ok (JObj fields) ->
  let r := outcome (is_sql_operation_done E operation project creds) w in
  (r = ok true <-> dict_get fields "status" = Some (JStr "DONE"))
  /\ (forall v, dict_get fields "status" = Some v -> v <> JStr "DONE" ->
                r = ok false)
  /\ (dict_get fields "status" = None -> r = raise (KeyError "status")).
Proof.
  intros Hc Hr r. subst r. unfold outcome.
  rewrite (is_sql_operation_done_run E creds svc dp Hc).
  unfold ok, raise in *. rewrite Hr. cbn [fst and_then py_getitem].
  destruct (dict_get fields "status") as [v |]; cbn [and_then ok raise].
  - destruct (eq_str v "DONE") eqn:Hd.
    + apply eq_str_true in Hd. subst v. unfold ok.
      repeat split; try discriminate; auto.
      intros v Hv Hne. now injection Hv as <-.
    + unfold ok. repeat split; try discriminate.
      * intros [= ->]. discriminate.
  - unfold raise. repeat split; discriminate.
Qed.

Lemma C4_done_iff_status_DONE_example :
  let r := outcome (is_sql_operation_done
                      (demo_env (ok (JObj [("status", JStr "DONE")])))
                      (Some "op-1") None None) world0 in
  (r = ok true <-> dict_get [("status", JStr "DONE")] "status"
                   = Some (JStr "DONE"))
  /\ (forall v, dict_get [("status", JStr "DONE")] "status" = Some v ->
                v <> JStr "DONE" -> r = ok false)
  /\ (dict_get [("status", JStr "DONE")] "status" = None ->
      r = raise (KeyError "status")).
Proof.
  apply (C4_done_iff_status_DONE
           (demo_env (ok (JObj [("status", JStr "DONE")]))) None demo_svc
           (Some "demo-project") (Some "op-1") None world0
           [("status", JStr "DONE")]).
  - exists (Credentials "adc"). split; reflexivity.
  - reflexivity.
Defined.

(** C5, as stated, fails on the explicit body [{}]: an empty [dict] is false,
    so [source_body or default_source_body] picks the default body, and the
    body sent then varies with [ip_address]. *)
Lemma C5_empty_body_not_sent :
  let bodies_for ip :=
    inserted_bodies
      (wire (after (create_source_representation (demo_env (ok JNull))
                      (Some ip) (Some "3306") (Some "MYSQL_5_7")
                      (Some "us-central1") (Some "src") (JObj []) None None)
               world0)) in
  bodies_for "10.0.0.1" <> [JObj []]
  /\ bodies_for "10.0.0.1" <> bodies_for "10.0.0.2".
Proof.
  split; discriminate.
Qed.

(** C5, amended. A given body that is true (any non-empty [dict]) is the body
    of the one insert request, for [create_cloudsql_instance],
    [create_source_representation] and [create_replica_instance] alike,
    whatever the per-field arguments are. *)
Theorem C5_true_body_sent_verbatim (E : env) (creds : option credentials)
    (svc : service) (dp project : pyarg) (w : world) (body : json) :
  connects E creds svc dp ->
  truthy body = true ->
  let req := instances_insert svc (arg_or project dp) body in
  sends (create_cloudsql_instance E body project creds) w req
  /\ (forall ip_address port database_version region source_name,
        sends (create_source_representation E ip_address port database_version
                 region source_name body project creds) w req)
  /\ (forall master_instance_name dumpfile_path replica_user replica_pwd
        replica_name,
        sends (create_replica_instance E master_instance_name dumpfile_path
                 replica_user replica_pwd replica_name body project creds)
          w req).
Proof.
  intros Hc Ht req. subst req. repeat split.
  - destruct (create_cloudsql_instance_sends E creds svc dp Hc body project w)
      as [Hs _].
    now rewrite (json_or_true _ _ Ht) in Hs.
  - intros ip_address port database_version region source_name.
    destruct (create_source_representation_sends E creds svc dp Hc ip_address
                port database_version region source_name body project w)
      as [Hs _].
    now rewrite (json_or_true _ _ Ht) in Hs.
  - intros master_instance_name dumpfile_path replica_user replica_pwd
      replica_name.
    destruct (create_replica_instance_sends E creds svc dp Hc
                master_instance_name dumpfile_path replica_user replica_pwd
                replica_name body project w) as [Hs _].
    now rewrite (json_or_true _ _ Ht) in Hs.
Qed.

Lemma C5_true_body_sent_verbatim_example :
  let body := JObj [("name", JStr "mine")] in
  let req := instances_insert demo_svc (Some "demo-project") body in
  sends (create_cloudsql_instance (demo_env (ok JNull)) body None None)
    world0 req
  /\ (forall ip_address port database_version region source_name,
        sends (create_source_representation (demo_env (ok JNull)) ip_address
                 port database_version region source_name body None None)
          world0 req)
  /\ (forall master_instance_name dumpfile_path replica_user replica_pwd
        replica_name,
        sends (create_replica_instance (demo_env (ok JNull))
                 master_instance_name dumpfile_path replica_user replica_pwd
                 replica_name body None None)
          world0 req).
Proof.
  apply (C5_true_body_sent_verbatim (demo_env (ok JNull)) None demo_svc
           (Some "demo-project") None world0 (JObj [("name", JStr "mine")])).
  - exists (Credentials "adc"). split; reflexivity.
  - reflexivity.
Defined.

(** C6, as stated, fails for the import: its body has an ['importContext']
    and nothing else, so no name, tier, version or region; and the default
    body of [create_cloudsql_instance] has neither version nor region. *)
Lemma C6_import_body_has_no_name :
  exists body,
    wire (after (import_sql_database (demo_env (ok JNull)) (Some "db-1")
                   (Some "gs://bucket/dump.sql") None None) world0)
    = [instances_import demo_svc (Some "demo-project") (Some "db-1") body]
    /\ py_getitem body "name" = raise (KeyError "name")
    /\ py_getitem body "settings" = raise (KeyError "settings")
    /\ py_getitem body "databaseVersion" = raise (KeyError "databaseVersion")
    /\ py_getitem body "region" = raise (KeyError "region").
Proof.
  eexists. repeat split; reflexivity.
Qed.

(** C6, amended. With no body given and the name omitted, each operation
    executes one request whose body is:
    for [create_cloudsql_instance], the name ['cloudsql-db-'] followed by the
    identifier drawn and the tier ['db-n1-standard-2'], nothing else;
    for [create_source_representation] with version and region left at their
    defaults, the name ['external-mysql-representation-'] followed by the
    identifier, the version ['MYSQL_5_7'], the region ['us-central1'] and the
    host and port, no tier;
    for [create_replica_instance], the name ['cloudsql-replica-'] followed by
    the identifier, the tier, the version and the region, with the master name
    and the replica configuration;
    for [import_sql_database], the import context alone. *)
Theorem C6_default_bodies (E : env) (creds : option credentials)
    (svc : service) (dp project : pyarg) (w : world) :
  connects E creds svc dp ->
  let token := uuid4 E (uuids_drawn w) in
  let target := arg_or project dp in
  sends (create_cloudsql_instance E JNull project creds) w
    (instances_insert svc target
       (JObj [("name", JStr ("cloudsql-db-" ++ token));
              ("settings", JObj [("tier", JStr "db-n1-standard-2")])]))
  /\ (forall ip_address port,
        sends (create_source_representation E ip_address port
                 (Some DEFAULT_2ND_GEN_DB_VERSION) (Some DEFAULT_2ND_GEN_REGION)
                 None JNull project creds) w
          (instances_insert svc target
             (JObj [("name", JStr ("external-mysql-representation-" ++ token));
                    ("databaseVersion", JStr "MYSQL_5_7");
                    ("region", JStr "us-central1");
                    ("onPremisesConfiguration",
                     JObj [("kind", JStr "sql#onPremisesConfiguration");
                           ("hostPort",
                            JStr (py_str ip_address ++ ":" ++ py_str port))])])))
  /\ (forall master_instance_name dumpfile_path replica_user replica_pwd,
        sends (create_replica_instance E master_instance_name dumpfile_path
                 replica_user replica_pwd None JNull project creds) w
          (instances_insert svc target
             (JObj [("name", JStr ("cloudsql-replica-" ++ token));
                    ("settings", JObj [("tier", JStr "db-n1-standard-2")]);
                    ("databaseVersion", JStr "MYSQL_5_7");
                    ("masterInstanceName", to_json master_instance_name);
                    ("region", JStr "us-central1");
                    ("replicaConfiguration",
                     JObj [("mysqlReplicaConfiguration",
                            JObj [("dumpFilePath", to_json dumpfile_path);
                                  ("username", to_json replica_user);
                                  ("password", to_json replica_pwd)])])])))
  /\ (forall database_instance import_file_uri,
        sends (import_sql_database E database_instance import_file_uri project
                 creds) w
          (instances_import svc target database_instance
             (JObj [("importContext",
                     JObj [("kind", JStr "sql#importContext");
                           ("fileType", JStr "SQL");
                           ("uri", to_json import_file_uri)])]))).
Proof.
  intros Hc token target. subst token target. repeat split.
  - exact (proj1 (create_cloudsql_instance_sends E creds svc dp Hc JNull
                    project w)).
  - intros ip_address port.
    exact (proj1 (create_source_representation_sends E creds svc dp Hc
                    ip_address port _ _ None JNull project w)).
  - intros master_instance_name dumpfile_path replica_user replica_pwd.
    exact (proj1 (create_replica_instance_sends E creds svc dp Hc
                    master_instance_name dumpfile_path replica_user replica_pwd
                    None JNull project w)).
  - intros database_instance import_file_uri.
    exact (proj1 (import_sql_database_sends E creds svc dp Hc database_instance
                    import_file_uri project w)).
Qed.

Lemma C6_default_bodies_example :
  sends (create_cloudsql_instance (demo_env (ok JNull)) JNull None None) world0
    (instances_insert demo_svc (Some "demo-project")
       (JObj [("name",
               JStr "cloudsql-db-6f1c2a34-0000-4000-8000-000000000000");
              ("settings", JObj [("tier", JStr "db-n1-standard-2")])])).
Proof.
  apply (C6_default_bodies (demo_env (ok JNull)) None demo_svc
           (Some "demo-project") None world0).
  exists (Credentials "adc"). split; reflexivity.
Defined.

(** C8, as stated, fails: a version outside the supported set is put in the
    default body and sent. *)
Lemma C8_unsupported_version_sent :
  exists body,
    inserted_bodies
      (wire (after (create_source_representation (demo_env (ok JNull))
                      (Some "10.0.0.1") (Some "3306") (Some "MYSQL_8_0")
                      (Some "us-central1") None JNull None None) world0))
    = [body]
    /\ py_getitem body "databaseVersion" = ok (JStr "MYSQL_8_0")
    /\ supported_version (JStr "MYSQL_8_0") = false.
Proof.
  eexists. repeat split; reflexivity.
Qed.

(** C8, amended. When [create_source_representation] builds its default body,
    the ['databaseVersion'] field sent is the [database_version] argument as
    given, with no check against [SUPPORTED_VERSIONS]; it is in the supported
    set exactly when the argument is, as it is for the default argument. *)
Theorem C8_version_sent_as_given (E : env) (creds : option credentials)
    (svc : service) (dp project : pyarg) (w : world)
    (ip_address port database_version region source_name : pyarg)
    (source_body : json) :
  connects E creds svc dp ->
  truthy source_body = false ->
  exists body,
    sends (create_source_representation E ip_address port database_version
             region source_name source_body project creds) w
      (instances_insert svc (arg_or project dp) body)
    /\ py_getitem body "databaseVersion" = ok (to_json database_version)
    /\ (database_version = Some DEFAULT_2ND_GEN_DB_VERSION ->
        supported_version (to_json database_version) = true).
Proof.
  intros Hc Hf.
  destruct (create_source_representation_sends E creds svc dp Hc ip_address
              port database_version region source_name source_body project w)
    as [Hs _].
  rewrite (json_or_false _ _ Hf) in Hs.
  eexists. split; [exact Hs|]. split; [reflexivity|].
  now intros ->.
Qed.

Lemma C8_version_sent_as_given_example :
  exists body,
    sends (create_source_representation (demo_env (ok JNull))
             (Some "10.0.0.1") (Some "3306") (Some "MYSQL_5_5")
             (Some "us-central1") None JNull None None) world0
      (instances_insert demo_svc (Some "demo-project") body)
    /\ py_getitem body "databaseVersion" = ok (JStr "MYSQL_5_5")
    /\ (Some "MYSQL_5_5" = Some DEFAULT_2ND_GEN_DB_VERSION ->
        supported_version (JStr "MYSQL_5_5") = true).
Proof.
  apply (C8_version_sent_as_given (demo_env (ok JNull)) None demo_svc
           (Some "demo-project") None world0 (Some "10.0.0.1") (Some "3306")
           (Some "MYSQL_5_5") (Some "us-central1") None JNull).
  - exists (Credentials "adc"). split; reflexivity.
  - reflexivity.
Defined.

(** C10. When [create_source_representation] builds its default body and
    [ip_address] is [None], the request is executed all the same: its body has
    [onPremisesConfiguration.hostPort] equal to ['None:'] followed by the
    port, that is ['None:3306'] for the default port, and the call returns
    whatever the service answers. *)
Theorem C10_absent_ip_formatted_as_None (E : env) (creds : option credentials)
    (svc : service) (dp project : pyarg) (w : world)
    (port database_version region source_name : pyarg) (source_body : json) :
  connects E creds svc dp ->
  truthy source_body = false ->
  let m :=
    create_source_representation E None port database_version region
      source_name source_body project creds in
  exists body,
    sends m w (instances_insert svc (arg_or project dp) body)
    /\ outcome m w
       = remote E (wire w) (instances_insert svc (arg_or project dp) body)
    /\ get_path body ["onPremisesConfiguration"; "hostPort"]
       = ok (JStr ("None:" ++ py_str port))
    /\ (port = Some DEFAULT_REPLICATION_PORT ->
        get_path body ["onPremisesConfiguration"; "hostPort"]
        = ok (JStr "None:3306")).
Proof.
  intros Hc Hf m.
  destruct (create_source_representation_sends E creds svc dp Hc None port
              database_version region source_name source_body project w)
    as [Hs Ho].
  rewrite (json_or_false _ _ Hf) in Hs, Ho.
  eexists. split; [exact Hs|]. split; [exact Ho|]. split; [reflexivity|].
  now intros ->.
Qed.

Lemma C10_absent_ip_formatted_as_None_example :
  let m :=
    create_source_representation (demo_env (ok (JObj [("kind", JStr "sql#operation")])))
      None (Some DEFAULT_REPLICATION_PORT) (Some DEFAULT_2ND_GEN_DB_VERSION)
      (Some DEFAULT_2ND_GEN_REGION) None JNull None None in
  exists body,
    sends m world0 (instances_insert demo_svc (Some "demo-project") body)
    /\ outcome m world0 = ok (JObj [("kind", JStr "sql#operation")])
    /\ get_path body ["onPremisesConfiguration"; "hostPort"]
       = ok (JStr "None:3306")
    /\ (Some DEFAULT_REPLICATION_PORT = Some DEFAULT_REPLICATION_PORT ->
        get_path body ["onPremisesConfiguration"; "hostPort"]
        = ok (JStr "None:3306")).
Proof.
  apply (C10_absent_ip_formatted_as_None
           (demo_env (ok (JObj [("kind", JStr "sql#operation")]))) None demo_svc
           (Some "demo-project") None world0 (Some DEFAULT_REPLICATION_PORT)
           (Some DEFAULT_2ND_GEN_DB_VERSION) (Some DEFAULT_2ND_GEN_REGION)
           None JNull).
  - exists (Credentials "adc"). split; reflexivity.
  - reflexivity.
Defined.

(** ** Further properties: when the proxy cannot be had *)

Section NoProxy.

Variable E : env.
Variable e : exn.

(** Every operation starts, or has [create_cloudsql_instance] or
    [get_instance] start, with a step that fails here; [Hstart] says so for
    any credentials and any world. *)
Variable creds : option credentials.
Hypothesis Hstart :
  google_auth_default E = raise e
  \/ exists dc dp,
       google_auth_default E = ok (dc, dp)
       /\ build_authorized_service E SQL_ADMIN_SERVICE
            SQL_ADMIN_SERVICE_VERSION (cred_or creds dc) = raise e.

Lemma create_cloudsql_instance_unsent (body : json) (project : pyarg)
    (w : world) :
  outcome (create_cloudsql_instance E body project creds) w = raise e
  /\ wire (after (create_cloudsql_instance E body project creds) w) = wire w.
Proof.
  unfold outcome, after, create_cloudsql_instance, build_sql_admin_service,
    bind, lift, ret, draw_uuid, execute, raise, ok in *.
  destruct Hstart as [Ha | (dc & dp & Ha & Hb)]; rewrite !Ha; cbn [cred_or];
    [|rewrite Hb]; split; reflexivity.
Qed.

Lemma import_sql_database_unsent (database_instance import_file_uri
    project : pyarg) (w : world) :
  fails_unsent
    (import_sql_database E database_instance import_file_uri project creds)
    w e.
Proof.
  unfold fails_unsent, outcome, after, import_sql_database,
    build_sql_admin_service, bind, lift, ret, execute, raise, ok in *.
  destruct Hstart as [Ha | (dc & dp & Ha & Hb)]; rewrite !Ha; cbn [cred_or];
    [|rewrite Hb]; split; reflexivity.
Qed.

Lemma is_sql_operation_done_unsent (operation project : pyarg) (w : world) :
  fails_unsent (is_sql_operation_done E operation project creds) w e.
Proof.
  unfold fails_unsent, outcome, after, is_sql_operation_done,
    build_sql_admin_service, bind, lift, ret, execute, raise, ok in *.
  destruct Hstart as [Ha | (dc & dp & Ha & Hb)]; rewrite !Ha; cbn [cred_or];
    [|rewrite Hb]; split; reflexivity.
Qed.

Lemma get_instance_unsent (instance project : pyarg) (w : world) :
  get_instance E instance project creds w = (raise e, w).
Proof.
  unfold get_instance, build_sql_admin_service, try_except,
    bind, lift, ret, execute, raise, ok in *.
  destruct Hstart as [Ha | (dc & dp & Ha & Hb)]; rewrite !Ha; cbn [cred_or];
    [|rewrite Hb]; reflexivity.
Qed.

Lemma every_operation_unsent (w : world) (project : pyarg) :
  every_operation_fails_unsent E creds project w e.
Proof.
  unfold every_operation_fails_unsent. repeat apply conj.
  - intros body. exact (create_cloudsql_instance_unsent body project w).
  - intros ip_address port database_version region source_name source_body.
    unfold fails_unsent, outcome, after.
    rewrite create_source_representation_run.
    destruct (create_cloudsql_instance_unsent
                (json_or source_body
                   (default_source_body
                      (chosen_name E source_name
                         DEFAULT_EXT_MASTER_FORMAT_STRING w)
                      ip_address port database_version region))
                project (named source_name w)) as [Ho Hw].
    split; [exact Ho | now rewrite <- (wire_named source_name w)].
  - intros master_instance_name dumpfile_path replica_user replica_pwd
      replica_name replica_body.
    unfold fails_unsent, outcome, after.
    rewrite create_replica_instance_run.
    destruct (create_cloudsql_instance_unsent
                (json_or replica_body
                   (default_replica_body
                      (chosen_name E replica_name
                         DEFAULT_REPLICA_FORMAT_STRING w)
                      master_instance_name dumpfile_path replica_user
                      replica_pwd))
                project (named replica_name w)) as [Ho Hw].
    split; [exact Ho | now rewrite <- (wire_named replica_name w)].
  - intros database_instance import_file_uri.
    apply import_sql_database_unsent.
  - intros operation. apply is_sql_operation_done_unsent.
  - intros instance. repeat apply conj.
    + unfold outcome. now rewrite get_instance_unsent.
    + unfold after. now rewrite get_instance_unsent.
    + unfold outcome, get_outgoing_ip_of_instance, bind.
      now rewrite get_instance_unsent.
    + unfold after, get_outgoing_ip_of_instance, bind.
      now rewrite get_instance_unsent.
    + unfold outcome, get_ip_and_service_account, bind.
      now rewrite get_instance_unsent.
    + unfold after, get_ip_and_service_account, bind.
      now rewrite get_instance_unsent.
Qed.

End NoProxy.

(** X1. When [google.auth.default()] raises, every operation raises that
    error and executes no request, also when the caller passes credentials of
    their own: the default lookup is made first in any case. *)
Theorem X1_default_lookup_failure_stops_every_operation (E : env) (e : exn)
    (creds : option credentials) (project : pyarg) (w : world) :
  google_auth_default E = raise e ->
  every_operation_fails_unsent E creds project w e.
Proof.
  intros Ha. apply every_operation_unsent. now left.
Qed.

Lemma X1_default_lookup_failure_example :
  every_operation_fails_unsent (offline_env (OtherError "DefaultCredentialsError"))
    (Some (Credentials "mine")) (Some "p") world0
    (OtherError "DefaultCredentialsError").
Proof.
  apply (X1_default_lookup_failure_stops_every_operation
           (offline_env (OtherError "DefaultCredentialsError"))
           (OtherError "DefaultCredentialsError")
           (Some (Credentials "mine")) (Some "p") world0).
  reflexivity.
Defined.

(** X2. When the proxy cannot be built ([build_authorized_service] raises for
    the service ['sqladmin'], version ['v1beta4'] and the credentials in
    force), every operation raises that error and executes no request. *)
Theorem X2_proxy_failure_stops_every_operation (E : env) (e : exn)
    (creds : option credentials) (dc : credentials) (dp project : pyarg)
    (w : world) :
  google_auth_default E = ok (dc, dp) ->
  build_authorized_service E SQL_ADMIN_SERVICE SQL_ADMIN_SERVICE_VERSION
    (cred_or creds dc) = raise e ->
  every_operation_fails_unsent E creds project w e.
Proof.
  intros Ha Hb. apply every_operation_unsent. right. now exists dc, dp.
Qed.

Lemma X2_proxy_failure_example :
  every_operation_fails_unsent (unbuilt_env (OtherError "UnknownApiNameOrVersion"))
    None None world0 (OtherError "UnknownApiNameOrVersion").
Proof.
  apply (X2_proxy_failure_stops_every_operation
           (unbuilt_env (OtherError "UnknownApiNameOrVersion"))
           (OtherError "UnknownApiNameOrVersion")
           None (Credentials "adc") (Some "demo-project") None world0);
    reflexivity.
Defined.

(** ** Further properties: what is relayed and what is translated *)

(** X3. The three creating operations and the import execute exactly one
    request and end as the service does on it: its answer is returned as it
    is, and an error it raises (a 404 included) is raised as it is. *)
Theorem X3_creation_and_import_relay_the_service (E : env)
    (creds : option credentials) (svc : service) (dp project : pyarg)
    (w : world) :
  connects E creds svc dp ->
  (forall body,
      exists req,
        sends (create_cloudsql_instance E body project creds) w req
        /\ outcome (create_cloudsql_instance E body project creds) w
           = remote E (wire w) req)
  /\ (forall ip_address port database_version region source_name source_body,
        exists req,
          sends (create_source_representation E ip_address port
                   database_version region source_name source_body project
                   creds) w req
          /\ outcome (create_source_representation E ip_address port
                        database_version region source_name source_body project
                        creds) w
             = remote E (wire w) req)
  /\ (forall master_instance_name dumpfile_path replica_user replica_pwd
        replica_name replica_body,
        exists req,
          sends (create_replica_instance E master_instance_name dumpfile_path
                   replica_user replica_pwd replica_name replica_body project
                   creds) w req
          /\ outcome (create_replica_instance E master_instance_name
                        dumpfile_path replica_user replica_pwd replica_name
                        replica_body project creds) w
             = remote E (wire w) req)
  /\ (forall database_instance import_file_uri,
        exists req,
          sends (import_sql_database E database_instance import_file_uri
                   project creds) w req
          /\ outcome (import_sql_database E database_instance import_file_uri
                        project creds) w
             = remote E (wire w) req).
Proof.
  intros Hc. repeat apply conj.
  - intros body. eexists.
    exact (create_cloudsql_instance_sends E creds svc dp Hc body project w).
  - intros ip_address port database_version region source_name source_body.
    eexists.
    exact (create_source_representation_sends E creds svc dp Hc ip_address
             port database_version region source_name source_body project w).
  - intros master_instance_name dumpfile_path replica_user replica_pwd
      replica_name replica_body.
    eexists.
    exact (create_replica_instance_sends E creds svc dp Hc
             master_instance_name dumpfile_path replica_user replica_pwd
             replica_name replica_body project w).
  - intros database_instance import_file_uri. eexists.
    exact (import_sql_database_sends E creds svc dp Hc database_instance
             import_file_uri project w).
Qed.

Lemma X3_creation_and_import_relay_example :
  exists req,
    sends (import_sql_database (demo_env (raise (HttpError 404))) (Some "db-1")
             (Some "gs://bucket/dump.sql") None None) world0 req
    /\ outcome (import_sql_database (demo_env (raise (HttpError 404)))
                  (Some "db-1") (Some "gs://bucket/dump.sql") None None) world0
       = remote (demo_env (raise (HttpError 404))) (wire world0) req.
Proof.
  apply (X3_creation_and_import_relay_the_service
           (demo_env (raise (HttpError 404))) None demo_svc
           (Some "demo-project") None world0).
  exists (Credentials "adc"). split; reflexivity.
Defined.

(** X4. [is_sql_operation_done] executes exactly one [operations.get]; an
    error of the transport is raised as it is, a 404 included (nothing is
    caught here); an answer that is not a [dict] ends in [TypeError]. *)
Theorem X4_status_poll_relays_errors (E : env) (creds : option credentials)
    (svc : service) (dp operation project : pyarg) (w : world) :
  connects E creds svc dp ->
  let m := is_sql_operation_done E operation project creds in
  let req := operations_get svc (arg_or project dp) operation in
  sends m w req
  /\ (forall e, remote E (wire w) req = raise e -> outcome m w = raise e)
  /\ (forall response,
        remote E (wire w) req = ok response ->
        (forall fields, response <> JObj fields) ->
        outcome m w = raise TypeError).
Proof.
  intros Hc m req. subst m. unfold sends, outcome, after.
  rewrite (is_sql_operation_done_run E creds svc dp Hc). fold req.
  repeat apply conj.
  - reflexivity.
  - intros e He. unfold raise in *. now rewrite He.
  - intros response Hr Hnd. unfold ok in *. rewrite Hr. cbn [fst and_then].
    destruct response as [ | b | n | t | items | fields]; try reflexivity.
    now destruct (Hnd fields).
Qed.

Lemma X4_status_poll_relays_errors_example :
  let E := demo_env (raise (HttpError 404)) in
  let m := is_sql_operation_done E (Some "op-1") None None in
  let req := operations_get demo_svc (Some "demo-project") (Some "op-1") in
  sends m world0 req
  /\ (forall e, remote E (wire world0) req = raise e ->
                outcome m world0 = raise e)
  /\ (forall response,
        remote E (wire world0) req = ok response ->
        (forall fields, response <> JObj fields) ->
        outcome m world0 = raise TypeError).
Proof.
  apply (X4_status_poll_relays_errors (demo_env (raise (HttpError 404))) None
           demo_svc (Some "demo-project") (Some "op-1") None world0).
  exists (Credentials "adc"). split; reflexivity.
Defined.

(** X5. [get_instance] raises
    [NameError('Cloud SQL instance <instance> not found.')] when the
    transport raises an [HttpError] with status 404; and a [NameError] that
    leaves [get_instance] comes from such a 404 or was raised by the
    transport itself. *)
Theorem X5_name_error_exactly_for_404 (E : env) (creds : option credentials)
    (svc : service) (dp instance project : pyarg) (w : world) :
  connects E creds svc dp ->
  let m := get_instance E instance project creds in
  let req := instances_get svc (arg_or project dp) instance in
  (remote E (wire w) req = raise (HttpError 404) ->
   outcome m w
   = raise (NameError ("Cloud SQL instance " ++ py_str instance
                       ++ " not found.")))
  /\ (forall msg,
        outcome m w = raise (NameError msg) ->
        remote E (wire w) req = raise (HttpError 404)
        \/ remote E (wire w) req = raise (NameError msg)).
Proof.
  intros Hc m req. split.
  - intros H.
    destruct (get_instance_not_found E creds svc dp Hc instance project w H)
      as (msg & Ho & -> & _).
    exact Ho.
  - intros msg. apply (get_instance_name_error E creds svc dp Hc).
Qed.

Lemma X5_name_error_exactly_for_404_example :
  let E := demo_env (raise (HttpError 404)) in
  let m := get_instance E (Some "db-1") None None in
  let req := instances_get demo_svc (Some "demo-project") (Some "db-1") in
  (remote E (wire world0) req = raise (HttpError 404) ->
   outcome m world0 = raise (NameError "Cloud SQL instance db-1 not found."))
  /\ (forall msg,
        outcome m world0 = raise (NameError msg) ->
        remote E (wire world0) req = raise (HttpError 404)
        \/ remote E (wire world0) req = raise (NameError msg)).
Proof.
  apply (X5_name_error_exactly_for_404 (demo_env (raise (HttpError 404))) None
           demo_svc (Some "demo-project") (Some "db-1") None world0).
  exists (Credentials "adc"). split; reflexivity.
Defined.

Lemma get_instance_handler_keeps_world (instance : pyarg) (e : exn)
    (w : world) :
  snd (get_instance_handler instance e w) = w.
Proof.
  destruct e as [ | | | | status | | ]; try reflexivity.
  cbn [get_instance_handler]. destruct (status =? 404)%Z; reflexivity.
Qed.

Lemma get_instance_world (E : env) (creds : option credentials) (svc : service)
    (dp instance project : pyarg) (w : world) :
  connects E creds svc dp ->
  after (get_instance E instance project creds) w
  = sent w (instances_get svc (arg_or project dp) instance).
Proof.
  intros Hc. unfold after. rewrite (get_instance_run E creds svc dp Hc).
  destruct (remote E (wire w) (instances_get svc (arg_or project dp) instance));
    [apply get_instance_handler_keeps_world | reflexivity].
Qed.

Lemma after_bind_lift {A B : Type} (m : M A) (f : A -> result B) (w : world) :
  after (x <- m ;; lift (f x)) w = after m w.
Proof.
  unfold after, bind, lift. destruct (m w) as [[e | a] w']; reflexivity.
Qed.

(** X6. [get_instance] and the two readers built on it execute exactly one
    [instances.get] request, whatever the service does: neither an answer nor
    an error, caught or not, leads to a second request. *)
Theorem X6_fetch_executes_one_request (E : env) (creds : option credentials)
    (svc : service) (dp instance project : pyarg) (w : world) :
  connects E creds svc dp ->
  let req := instances_get svc (arg_or project dp) instance in
  sends (get_instance E instance project creds) w req
  /\ sends (get_outgoing_ip_of_instance E instance project creds) w req
  /\ sends (get_ip_and_service_account E instance project creds) w req.
Proof.
  intros Hc req. unfold sends, get_outgoing_ip_of_instance,
    get_ip_and_service_account.
  rewrite !after_bind_lift, (get_instance_world E creds svc dp _ _ _ Hc).
  repeat split; reflexivity.
Qed.

Lemma X6_fetch_executes_one_request_example :
  let E := demo_env (raise HttpLib2Error) in
  let req := instances_get demo_svc (Some "demo-project") (Some "db-1") in
  sends (get_instance E (Some "db-1") None None) world0 req
  /\ sends (get_outgoing_ip_of_instance E (Some "db-1") None None) world0 req
  /\ sends (get_ip_and_service_account E (Some "db-1") None None) world0 req.
Proof.
  apply (X6_fetch_executes_one_request (demo_env (raise HttpLib2Error)) None
           demo_svc (Some "demo-project") (Some "db-1") None world0).
  exists (Credentials "adc"). split; reflexivity.
Defined.

(** X7. [get_instance] returns the answer of the service as it is, and an
    error of the transport that is neither an [HttpError] nor an
    [HttpLib2Error] is raised as it is. *)
Theorem X7_fetch_relays_answer_and_uncaught_errors (E : env)
    (creds : option credentials) (svc : service) (dp instance project : pyarg)
    (w : world) :
  connects E creds svc dp ->
  let m := get_instance E instance project creds in
  let req := instances_get svc (arg_or project dp) instance in
  (forall response, remote E (wire w) req = ok response ->
                    outcome m w = ok response)
  /\ (forall e, caught e = false -> remote E (wire w) req = raise e ->
                outcome m w = raise e).
Proof.
  intros Hc m req. split.
  - intros response. apply (get_instance_found E creds svc dp Hc).
  - intros e. apply (get_instance_uncaught E creds svc dp Hc).
Qed.

Lemma X7_fetch_relays_example :
  let E := demo_env (raise (OtherError "socket.timeout")) in
  let m := get_instance E (Some "db-1") None None in
  let req := instances_get demo_svc (Some "demo-project") (Some "db-1") in
  (forall response, remote E (wire world0) req = ok response ->
                    outcome m world0 = ok response)
  /\ (forall e, caught e = false -> remote E (wire world0) req = raise e ->
                outcome m world0 = raise e).
Proof.
  apply (X7_fetch_relays_answer_and_uncaught_errors
           (demo_env (raise (OtherError "socket.timeout"))) None demo_svc
           (Some "demo-project") (Some "db-1") None world0).
  exists (Credentials "adc"). split; reflexivity.
Defined.

(** X8. When the transport raises an [HttpError] other than a 404, or an
    [HttpLib2Error], both readers end in [TypeError]: [get_instance] hands
    them [None], and [IP_ADDRESSES in None] raises. *)
Theorem X8_caught_error_surfaces_as_type_error (E : env)
    (creds : option credentials) (svc : service) (dp instance project : pyarg)
    (w : world) (e : exn) :
  connects E creds svc dp ->
  caught e = true ->
  e <> HttpError 404 ->
  remote E (wire w) (instances_get svc (arg_or project dp) instance) = raise e ->
  outcome (get_outgoing_ip_of_instance E instance project creds) w
  = raise TypeError
  /\ outcome (get_ip_and_service_account E instance project creds) w
     = raise TypeError.
Proof.
  intros Hc Hk Hne Hr.
  rewrite get_outgoing_ip_of_instance_run, get_ip_and_service_account_run.
  rewrite (get_instance_swallowed E creds svc dp Hc instance project w e
             Hk Hne Hr).
  split; reflexivity.
Qed.

Lemma X8_caught_error_surfaces_example :
  outcome (get_outgoing_ip_of_instance (demo_env (raise (HttpError 503)))
             (Some "db-1") None None) world0
  = raise TypeError
  /\ outcome (get_ip_and_service_account (demo_env (raise (HttpError 503)))
                (Some "db-1") None None) world0
     = raise TypeError.
Proof.
  apply (X8_caught_error_surfaces_as_type_error
           (demo_env (raise (HttpError 503))) None demo_svc
           (Some "demo-project") (Some "db-1") None world0 (HttpError 503)).
  - exists (Credentials "adc"). split; reflexivity.
  - reflexivity.
  - discriminate.
  - reflexivity.
Defined.

(** ** Further properties: reading the description *)

(** The scan does not look past its first hit. *)
Lemma next_outgoing_stops_at_hit (before rest : list json) (o : json) :
  Forall tagged before ->
  find is_outgoing before = None ->
  is_outgoing o = true ->
  next_outgoing (before ++ o :: rest) = ok o.
Proof.
  intros Ht. revert o rest.
  induction Ht as [| x before' [t Hx] _ IH]; intros o rest Hf Ho.
  - cbn [app next_outgoing]. unfold is_outgoing in Ho. unfold and_then.
    destruct (py_getitem o "type") as [e | t]; [discriminate|].
    now rewrite Ho.
  - cbn [app next_outgoing find] in *. unfold is_outgoing in Hf.
    unfold and_then. rewrite Hx in *. unfold ok in *.
    destruct (eq_str t "OUTGOING"); [discriminate|].
    now apply IH.
Qed.

(** An entry whose ['type'] cannot be read ends the scan with that error,
    when no entry before it is a hit. *)
Lemma next_outgoing_stops_at_error (before rest : list json) (x : json)
    (e : exn) :
  Forall tagged before ->
  find is_outgoing before = None ->
  py_getitem x "type" = raise e ->
  next_outgoing (before ++ x :: rest) = raise e.
Proof.
  intros Ht. revert x rest.
  induction Ht as [| y before' [t Hy] _ IH]; intros x rest Hf Hx.
  - cbn [app next_outgoing]. unfold and_then, raise in *. now rewrite Hx.
  - cbn [app next_outgoing find] in *. unfold is_outgoing in Hf.
    unfold and_then. rewrite Hy in *. unfold ok in *.
    destruct (eq_str t "OUTGOING"); [discriminate|].
    now apply IH.
Qed.

(** X9. When the fetched description is a [dict] without an ['ipAddresses']
    field, [get_outgoing_ip_of_instance] raises
    [KeyError('ipAddresses not found in response.')]. *)
Theorem X9_strict_reports_missing_list (E : env) (instance project : pyarg)
    (creds : option credentials) (w : world) (fields : list (string * json)) :
  outcome (get_instance E instance project creds) w = ok (JObj fields) ->
  dict_get fields IP_ADDRESSES = None ->
  outcome (get_outgoing_ip_of_instance E instance project creds) w
  = raise (KeyError "ipAddresses not found in response.").
Proof.
  intros Hfetch Habs. rewrite get_outgoing_ip_of_instance_run, Hfetch.
  cbn [and_then ok]. now apply strict_field_absent.
Qed.

Lemma X9_strict_reports_missing_list_example :
  outcome (get_outgoing_ip_of_instance
             (demo_env (ok (JObj [("name", JStr "db-1")])))
             (Some "db-1") None None) world0
  = raise (KeyError "ipAddresses not found in response.").
Proof.
  apply (X9_strict_reports_missing_list
           (demo_env (ok (JObj [("name", JStr "db-1")])))
           (Some "db-1") None None world0 [("name", JStr "db-1")]);
    reflexivity.
Defined.

(** X10. Once the description has been fetched, whatever it is,
    [get_outgoing_ip_of_instance] does not end in
    [KeyError('No outgoing IP address found.')]: that [raise] is dead code. *)
Theorem X10_strict_never_reports_no_outgoing (E : env)
    (instance project : pyarg) (creds : option credentials) (w : world)
    (response : json) :
  outcome (get_instance E instance project creds) w = ok response ->
  outcome (get_outgoing_ip_of_instance E instance project creds) w
  <> raise (KeyError "No outgoing IP address found.").
Proof.
  intros Hfetch. rewrite get_outgoing_ip_of_instance_run, Hfetch.
  cbn [and_then ok]. apply strict_never_reports_no_outgoing.
Qed.

Lemma X10_strict_never_reports_no_outgoing_example :
  outcome (get_outgoing_ip_of_instance
             (demo_env (ok (JObj [(IP_ADDRESSES, JArr [])])))
             (Some "db-1") None None) world0
  <> raise (KeyError "No outgoing IP address found.").
Proof.
  apply (X10_strict_never_reports_no_outgoing
           (demo_env (ok (JObj [(IP_ADDRESSES, JArr [])])))
           (Some "db-1") None None world0 (JObj [(IP_ADDRESSES, JArr [])])).
  reflexivity.
Defined.

(** X11. When the fetched description is a [dict] without an ['ipAddresses']
    field, [get_ip_and_service_account] returns: the address half is [None]
    and the account half is the ['serviceAccountEmailAddress'] field, or
    [None] without that field. *)
Theorem X11_lenient_without_list (E : env) (instance project : pyarg)
    (creds : option credentials) (w : world) (fields : list (string * json)) :
  outcome (get_instance E instance project creds) w = ok (JObj fields) ->
  dict_get fields IP_ADDRESSES = None ->
  outcome (get_ip_and_service_account E instance project creds) w
  = ok (JNull, account_of fields).
Proof.
  intros Hfetch Habs. rewrite get_ip_and_service_account_run, Hfetch.
  cbn [and_then ok]. now apply lenient_field_absent.
Qed.

Lemma X11_lenient_without_list_example :
  outcome (get_ip_and_service_account
             (demo_env (ok (JObj [(SERVICE_ACCOUNT_EMAIL, JStr "sa@p.iam")])))
             (Some "db-1") None None) world0
  = ok (JNull, JStr "sa@p.iam").
Proof.
  apply (X11_lenient_without_list
           (demo_env (ok (JObj [(SERVICE_ACCOUNT_EMAIL, JStr "sa@p.iam")])))
           (Some "db-1") None None world0
           [(SERVICE_ACCOUNT_EMAIL, JStr "sa@p.iam")]);
    reflexivity.
Defined.

(** X12. The scan stops at the first entry tagged ['OUTGOING']: when the
    entries before it are tagged otherwise, the strict reader ends as the
    lookup of ['ipAddress'] in that entry does (its value, or
    [KeyError('ipAddress')] without the field), and the lenient reader pairs
    that value with the account; the entries after the hit are not looked at
    and may be anything. *)
Theorem X12_entries_after_the_hit_are_ignored (E : env)
    (instance project : pyarg) (creds : option credentials) (w : world)
    (fields : list (string * json)) (before rest : list json) (o : json) :
  outcome (get_instance E instance project creds) w = ok (JObj fields) ->
  dict_get fields IP_ADDRESSES = Some (JArr (before ++ o :: rest)) ->
  Forall tagged before ->
  find is_outgoing before = None ->
  is_outgoing o = true ->
  outcome (get_outgoing_ip_of_instance E instance project creds) w
  = py_getitem o IP_ADDRESS
  /\ outcome (get_ip_and_service_account E instance project creds) w
     = (ip <~ py_getitem o IP_ADDRESS ;; ok (ip, account_of fields)).
Proof.
  intros Hfetch Hlist Htag Hnone Ho.
  rewrite get_outgoing_ip_of_instance_run, get_ip_and_service_account_run.
  rewrite Hfetch. cbn [and_then ok].
  rewrite (strict_list_present _ _ Hlist), (lenient_list_present _ _ Hlist).
  rewrite (next_outgoing_stops_at_hit _ _ _ Htag Hnone Ho).
  split; reflexivity.
Qed.

Lemma X12_entries_after_the_hit_example :
  let o := JObj [("type", JStr "OUTGOING"); (IP_ADDRESS, JStr "2.2.2.2")] in
  let d := JObj [(IP_ADDRESSES, JArr [o; JNum 7; JObj []])] in
  outcome (get_outgoing_ip_of_instance (demo_env (ok d)) (Some "db-1") None
             None) world0
  = py_getitem o IP_ADDRESS
  /\ outcome (get_ip_and_service_account (demo_env (ok d)) (Some "db-1") None
                None) world0
     = (ip <~ py_getitem o IP_ADDRESS ;;
        ok (ip, account_of [(IP_ADDRESSES, JArr [o; JNum 7; JObj []])])).
Proof.
  intros o d.
  apply (X12_entries_after_the_hit_are_ignored (demo_env (ok d)) (Some "db-1")
           None None world0 [(IP_ADDRESSES, JArr [o; JNum 7; JObj []])]
           [] [JNum 7; JObj []] o).
  - reflexivity.
  - reflexivity.
  - constructor.
  - reflexivity.
  - reflexivity.
Defined.

Lemma lenient_raises_with_strict (response : json) (e : exn) :
  outgoing_ip_of_response response = raise e ->
  e <> KeyError "ipAddresses not found in response." ->
  ip_and_service_account_of_response response = raise e.
Proof.
  unfold outgoing_ip_of_response, ip_and_service_account_of_response, and_then,
    raise.
  destruct (py_in IP_ADDRESSES response) as [e' | present];
    [now intros [= ->]|].
  destruct present.
  - destruct (py_getitem response IP_ADDRESSES) as [e' | addresses];
      [now intros [= ->]|].
    destruct (py_iter addresses) as [e' | items]; [now intros [= ->]|].
    destruct (next_outgoing items) as [e' | o] eqn:Hn; [now intros [= ->]|].
    destruct (next_outgoing_ok _ _ Hn) as (_ & _ & ->).
    destruct (py_getitem o IP_ADDRESS) as [e' | ip]; [now intros [= ->]|].
    discriminate.
  - intros [= <-] Hne. now destruct Hne.
Qed.

(** X13. Apart from the report of a missing address list, every error that
    [get_outgoing_ip_of_instance] raises is raised by
    [get_ip_and_service_account] too, run from the same world. *)
Theorem X13_lenient_raises_what_strict_raises (E : env)
    (instance project : pyarg) (creds : option credentials) (w : world)
    (e : exn) :
  outcome (get_outgoing_ip_of_instance E instance project creds) w = raise e ->
  e <> KeyError "ipAddresses not found in response." ->
  outcome (get_ip_and_service_account E instance project creds) w = raise e.
Proof.
  rewrite get_outgoing_ip_of_instance_run, get_ip_and_service_account_run.
  destruct (outcome (get_instance E instance project creds) w)
    as [e' | response]; cbn [and_then].
  - now intros [= ->].
  - apply lenient_raises_with_strict.
Qed.

Lemma X13_lenient_raises_what_strict_raises_example :
  outcome (get_ip_and_service_account (demo_env (ok no_outgoing)) (Some "db-1")
             None None) world0
  = raise StopIteration.
Proof.
  apply (X13_lenient_raises_what_strict_raises (demo_env (ok no_outgoing))
           (Some "db-1") None None world0 StopIteration).
  - reflexivity.
  - discriminate.
Defined.

(** X14. An address entry whose ['type'] cannot be read (a [dict] without
    that field: [KeyError('type')]; a value that is not a [dict]:
    [TypeError]) makes both readers raise that error, when it comes before
    the first entry tagged ['OUTGOING']. *)
Theorem X14_unreadable_entry_before_the_hit (E : env)
    (instance project : pyarg) (creds : option credentials) (w : world)
    (fields : list (string * json)) (before rest : list json) (x : json)
    (e : exn) :
  outcome (get_instance E instance project creds) w = ok (JObj fields) ->
  dict_get fields IP_ADDRESSES = Some (JArr (before ++ x :: rest)) ->
  Forall tagged before ->
  find is_outgoing before = None ->
  py_getitem x "type" = raise e ->
  outcome (get_outgoing_ip_of_instance E instance project creds) w = raise e
  /\ outcome (get_ip_and_service_account E instance project creds) w = raise e.
Proof.
  intros Hfetch Hlist Htag Hnone Hx.
  rewrite get_outgoing_ip_of_instance_run, get_ip_and_service_account_run.
  rewrite Hfetch. cbn [and_then ok].
  rewrite (strict_list_present _ _ Hlist), (lenient_list_present _ _ Hlist).
  rewrite (next_outgoing_stops_at_error _ _ _ _ Htag Hnone Hx).
  split; reflexivity.
Qed.

Lemma X14_unreadable_entry_example :
  let d :=
    JObj [(IP_ADDRESSES,
           JArr [JObj [(IP_ADDRESS, JStr "1.1.1.1")];
                 JObj [("type", JStr "OUTGOING"); (IP_ADDRESS, JStr "2.2.2.2")]])]
  in
  outcome (get_outgoing_ip_of_instance (demo_env (ok d)) (Some "db-1") None
             None) world0
  = raise (KeyError "type")
  /\ outcome (get_ip_and_service_account (demo_env (ok d)) (Some "db-1") None
                None) world0
     = raise (KeyError "type").
Proof.
  intros d.
  apply (X14_unreadable_entry_before_the_hit (demo_env (ok d)) (Some "db-1")
           None None world0
           [(IP_ADDRESSES,
             JArr [JObj [(IP_ADDRESS, JStr "1.1.1.1")];
                   JObj [("type", JStr "OUTGOING");
                         (IP_ADDRESS, JStr "2.2.2.2")]])]
           []
           [JObj [("type", JStr "OUTGOING"); (IP_ADDRESS, JStr "2.2.2.2")]]
           (JObj [(IP_ADDRESS, JStr "1.1.1.1")]) (KeyError "type")).
  - reflexivity.
  - reflexivity.
  - constructor.
  - reflexivity.
  - reflexivity.
Defined.

(** ** Further properties: names, identifiers and projects *)

Lemma create_cloudsql_instance_world (E : env) (creds : option credentials)
    (svc : service) (dp project : pyarg) (body : json) (w : world) :
  connects E creds svc dp ->
  uuids_drawn (after (create_cloudsql_instance E body project creds) w)
  = S (uuids_drawn w).
Proof.
  intros Hc. unfold after.
  rewrite (create_cloudsql_instance_run E creds svc dp Hc). reflexivity.
Qed.

(** X15. In the default body of [create_source_representation] and of
    [create_replica_instance] a name given by the caller is used as it is,
    while an omitted or empty name is replaced by the prefix of the operation
    followed by a fresh identifier. *)
Theorem X15_given_name_kept_empty_name_generated (E : env)
    (creds : option credentials) (svc : service) (dp project : pyarg)
    (w : world) (name : pyarg) (body : json) :
  connects E creds svc dp ->
  truthy body = false ->
  let token := uuid4 E (uuids_drawn w) in
  (forall ip_address port database_version region,
      exists sent_body,
        sends (create_source_representation E ip_address port database_version
                 region name body project creds) w
          (instances_insert svc (arg_or project dp) sent_body)
        /\ py_getitem sent_body "name"
           = ok (JStr (if arg_truthy name then py_str name
                       else "external-mysql-representation-" ++ token)))
  /\ (forall master_instance_name dumpfile_path replica_user replica_pwd,
        exists sent_body,
          sends (create_replica_instance E master_instance_name dumpfile_path
                   replica_user replica_pwd name body project creds) w
            (instances_insert svc (arg_or project dp) sent_body)
          /\ py_getitem sent_body "name"
             = ok (JStr (if arg_truthy name then py_str name
                         else "cloudsql-replica-" ++ token))).
Proof.
  intros Hc Hf token. split.
  - intros ip_address port database_version region.
    destruct (create_source_representation_sends E creds svc dp Hc ip_address
                port database_version region name body project w) as [Hs _].
    rewrite (json_or_false _ _ Hf) in Hs.
    eexists. split; [exact Hs|]. reflexivity.
  - intros master_instance_name dumpfile_path replica_user replica_pwd.
    destruct (create_replica_instance_sends E creds svc dp Hc
                master_instance_name dumpfile_path replica_user replica_pwd
                name body project w) as [Hs _].
    rewrite (json_or_false _ _ Hf) in Hs.
    eexists. split; [exact Hs|]. reflexivity.
Qed.

Lemma X15_given_name_kept_example :
  let E := demo_env (ok JNull) in
  let token := uuid4 E (uuids_drawn world0) in
  (forall ip_address port database_version region,
      exists sent_body,
        sends (create_source_representation E ip_address port database_version
                 region (Some "") JNull None None) world0
          (instances_insert demo_svc (arg_or None (Some "demo-project"))
             sent_body)
        /\ py_getitem sent_body "name"
           = ok (JStr (if arg_truthy (Some "") then py_str (Some "")
                       else "external-mysql-representation-" ++ token)))
  /\ (forall master_instance_name dumpfile_path replica_user replica_pwd,
        exists sent_body,
          sends (create_replica_instance E master_instance_name dumpfile_path
                   replica_user replica_pwd (Some "") JNull None None) world0
            (instances_insert demo_svc (arg_or None (Some "demo-project"))
               sent_body)
          /\ py_getitem sent_body "name"
             = ok (JStr (if arg_truthy (Some "") then py_str (Some "")
                         else "cloudsql-replica-" ++ token))).
Proof.
  exact (X15_given_name_kept_empty_name_generated (demo_env (ok JNull)) None
           demo_svc (Some "demo-project") None world0 (Some "") JNull
           (ex_intro _ (Credentials "adc") (conj eq_refl eq_refl)) eq_refl).
Defined.

(** X16. Two calls of [create_cloudsql_instance] without a body, one after
    the other, send different generated names, provided the two identifiers
    drawn for them differ. *)
Theorem X16_successive_default_names_differ (E : env)
    (creds : option credentials) (svc : service) (dp p1 p2 : pyarg)
    (w : world) :
  connects E creds svc dp ->
  uuid4 E (uuids_drawn w) <> uuid4 E (S (uuids_drawn w)) ->
  let first := create_cloudsql_instance E JNull p1 creds in
  let second := create_cloudsql_instance E JNull p2 creds in
  exists b1 b2 n1 n2,
    sends first w (instances_insert svc (arg_or p1 dp) b1)
    /\ sends second (after first w) (instances_insert svc (arg_or p2 dp) b2)
    /\ py_getitem b1 "name" = ok (JStr n1)
    /\ py_getitem b2 "name" = ok (JStr n2)
    /\ n1 <> n2.
Proof.
  intros Hc Hdiff first second.
  destruct (create_cloudsql_instance_sends E creds svc dp Hc JNull p1 w)
    as [H1 _].
  destruct (create_cloudsql_instance_sends E creds svc dp Hc JNull p2
              (after first w)) as [H2 _].
  subst first.
  rewrite (create_cloudsql_instance_world E creds svc dp p1 JNull w Hc) in H2.
  do 4 eexists. split; [exact H1|]. split; [exact H2|].
  split; [reflexivity|]. split; [reflexivity|].
  unfold DEFAULT_CLOUDSQL_FORMAT_STRING. cbn [append].
  intros H. injection H as H. now apply Hdiff.
Qed.

Lemma X16_successive_default_names_example :
  let E := demo_env (ok JNull) in
  let first := create_cloudsql_instance E JNull None None in
  let second := create_cloudsql_instance E JNull None None in
  exists b1 b2 n1 n2,
    sends first world0 (instances_insert demo_svc (Some "demo-project") b1)
    /\ sends second (after first world0)
         (instances_insert demo_svc (Some "demo-project") b2)
    /\ py_getitem b1 "name" = ok (JStr n1)
    /\ py_getitem b2 "name" = ok (JStr n2)
    /\ n1 <> n2.
Proof.
  apply (X16_successive_default_names_differ (demo_env (ok JNull)) None
           demo_svc (Some "demo-project") None None world0).
  - exists (Credentials "adc"). split; reflexivity.
  - discriminate.
Defined.

(** X17. Generated names of different operations never coincide, whatever
    identifiers are drawn: the three prefixes exclude one another. *)
Theorem X17_generated_names_of_different_kinds_differ (u v : string) :
  DEFAULT_CLOUDSQL_FORMAT_STRING u <> DEFAULT_EXT_MASTER_FORMAT_STRING v
  /\ DEFAULT_CLOUDSQL_FORMAT_STRING u <> DEFAULT_REPLICA_FORMAT_STRING v
  /\ DEFAULT_EXT_MASTER_FORMAT_STRING u <> DEFAULT_REPLICA_FORMAT_STRING v.
Proof.
  repeat split; discriminate.
Qed.

Lemma uuids_drawn_named (name : pyarg) (w : world) :
  uuids_drawn (named name w)
  = (if arg_truthy name then 0 else 1) + uuids_drawn w.
Proof.
  unfold named. destruct (arg_truthy name); reflexivity.
Qed.

(** X18. Identifiers drawn from [uuid.uuid4]: [create_cloudsql_instance]
    draws one on every call, also when a body is given (its default body is
    built before the choice); the two wrappers draw one more exactly when the
    name is omitted or empty; the import, the status poll and the fetch draw
    none. *)
Theorem X18_identifiers_drawn (E : env) (creds : option credentials)
    (svc : service) (dp project : pyarg) (w : world) :
  connects E creds svc dp ->
  (forall body,
      uuids_drawn (after (create_cloudsql_instance E body project creds) w)
      = 1 + uuids_drawn w)
  /\ (forall ip_address port database_version region source_name source_body,
        uuids_drawn
          (after (create_source_representation E ip_address port
                    database_version region source_name source_body project
                    creds) w)
        = (if arg_truthy source_name then 1 else 2) + uuids_drawn w)
  /\ (forall master_instance_name dumpfile_path replica_user replica_pwd
        replica_name replica_body,
        uuids_drawn
          (after (create_replica_instance E master_instance_name dumpfile_path
                    replica_user replica_pwd replica_name replica_body project
                    creds) w)
        = (if arg_truthy replica_name then 1 else 2) + uuids_drawn w)
  /\ (forall database_instance import_file_uri,
        uuids_drawn
          (after (import_sql_database E database_instance import_file_uri
                    project creds) w)
        = uuids_drawn w)
  /\ (forall operation,
        uuids_drawn (after (is_sql_operation_done E operation project creds) w)
        = uuids_drawn w)
  /\ (forall instance,
        uuids_drawn (after (get_instance E instance project creds) w)
        = uuids_drawn w).
Proof.
  intros Hc. repeat apply conj.
  - intros body. apply (create_cloudsql_instance_world E creds svc dp _ _ _ Hc).
  - intros ip_address port database_version region source_name source_body.
    unfold after. rewrite create_source_representation_run.
    fold (after (create_cloudsql_instance E
                   (json_or source_body
                      (default_source_body
                         (chosen_name E source_name
                            DEFAULT_EXT_MASTER_FORMAT_STRING w)
                         ip_address port database_version region))
                   project creds) (named source_name w)).
    rewrite (create_cloudsql_instance_world E creds svc dp _ _ _ Hc).
    rewrite uuids_drawn_named. now destruct (arg_truthy source_name).
  - intros master_instance_name dumpfile_path replica_user replica_pwd
      replica_name replica_body.
    unfold after. rewrite create_replica_instance_run.
    fold (after (create_cloudsql_instance E
                   (json_or replica_body
                      (default_replica_body
                         (chosen_name E replica_name
                            DEFAULT_REPLICA_FORMAT_STRING w)
                         master_instance_name dumpfile_path replica_user
                         replica_pwd))
                   project creds) (named replica_name w)).
    rewrite (create_cloudsql_instance_world E creds svc dp _ _ _ Hc).
    rewrite uuids_drawn_named. now destruct (arg_truthy replica_name).
  - intros database_instance import_file_uri. unfold after.
    now rewrite (import_sql_database_run E creds svc dp Hc).
  - intros operation. unfold after.
    now rewrite (is_sql_operation_done_run E creds svc dp Hc).
  - intros instance.
    now rewrite (get_instance_world E creds svc dp _ _ _ Hc).
Qed.

Lemma X18_identifiers_drawn_example :
  uuids_drawn
    (after (create_cloudsql_instance (demo_env (ok JNull))
              (JObj [("name", JStr "mine")]) None None) world0)
  = 1 + uuids_drawn world0.
Proof.
  apply (X18_identifiers_drawn (demo_env (ok JNull)) None demo_svc
           (Some "demo-project") None world0).
  exists (Credentials "adc"). split; reflexivity.
Defined.

(** X19. A project that is omitted or empty is replaced by the default
    project of the credential lookup in the request of every operation. *)
Theorem X19_false_project_means_default_project (E : env)
    (creds : option credentials) (svc : service) (dp project : pyarg)
    (w : world) :
  connects E creds svc dp ->
  arg_truthy project = false ->
  (forall body,
      exists sent_body,
        sends (create_cloudsql_instance E body project creds) w
          (instances_insert svc dp sent_body))
  /\ (forall database_instance import_file_uri,
        sends (import_sql_database E database_instance import_file_uri project
                 creds) w
          (instances_import svc dp database_instance
             (instances_import_request_body import_file_uri)))
  /\ (forall operation,
        sends (is_sql_operation_done E operation project creds) w
          (operations_get svc dp operation))
  /\ (forall instance,
        sends (get_instance E instance project creds) w
          (instances_get svc dp instance)).
Proof.
  intros Hc Hp.
  assert (Ht : arg_or project dp = dp) by (unfold arg_or; now rewrite Hp).
  repeat apply conj.
  - intros body. eexists. rewrite <- Ht at 1.
    exact (proj1 (create_cloudsql_instance_sends E creds svc dp Hc body
                    project w)).
  - intros database_instance import_file_uri. rewrite <- Ht at 1.
    exact (proj1 (import_sql_database_sends E creds svc dp Hc
                    database_instance import_file_uri project w)).
  - intros operation. rewrite <- Ht at 1. unfold sends, after.
    now rewrite (is_sql_operation_done_run E creds svc dp Hc).
  - intros instance. rewrite <- Ht at 1. unfold sends.
    now rewrite (get_instance_world E creds svc dp _ _ _ Hc).
Qed.

Lemma X19_false_project_example :
  sends (get_instance (demo_env (ok JNull)) (Some "db-1") (Some "") None)
    world0 (instances_get demo_svc (Some "demo-project") (Some "db-1")).
Proof.
  apply (X19_false_project_means_default_project (demo_env (ok JNull)) None
           demo_svc (Some "demo-project") (Some "") world0).
  - exists (Credentials "adc"). split; reflexivity.
  - reflexivity.
Defined.

(** X20. The proxy of every request is the one [build_authorized_service]
    gives for the service ['sqladmin'], version ['v1beta4'], and the caller's
    credentials when there are any, the default credentials otherwise: the
    two successive [credentials or default_credentials] pick the same
    object. *)
Theorem X20_requests_use_the_callers_credentials (E : env)
    (creds : option credentials) (dc : credentials) (svc : service)
    (dp project : pyarg) (w : world) :
  google_auth_default E = ok (dc, dp) ->
  build_authorized_service E "sqladmin" "v1beta4"
    (match creds with Some given => given | None => dc end) = ok svc ->
  (forall body,
      exists sent_body,
        sends (create_cloudsql_instance E body project creds) w
          (instances_insert svc (arg_or project dp) sent_body))
  /\ (forall database_instance import_file_uri,
        sends (import_sql_database E database_instance import_file_uri project
                 creds) w
          (instances_import svc (arg_or project dp) database_instance
             (instances_import_request_body import_file_uri)))
  /\ (forall operation,
        sends (is_sql_operation_done E operation project creds) w
          (operations_get svc (arg_or project dp) operation))
  /\ (forall instance,
        sends (get_instance E instance project creds) w
          (instances_get svc (arg_or project dp) instance)).
Proof.
  intros Ha Hb.
  assert (Hc : connects E creds svc dp) by (exists dc; split; assumption).
  repeat apply conj.
  - intros body. eexists.
    exact (proj1 (create_cloudsql_instance_sends E creds svc dp Hc body
                    project w)).
  - intros database_instance import_file_uri.
    exact (proj1 (import_sql_database_sends E creds svc dp Hc
                    database_instance import_file_uri project w)).
  - intros operation. unfold sends, after.
    now rewrite (is_sql_operation_done_run E creds svc dp Hc).
  - intros instance. unfold sends.
    now rewrite (get_instance_world E creds svc dp _ _ _ Hc).
Qed.

Lemma X20_requests_use_the_callers_credentials_example :
  sends (get_instance (demo_env (ok JNull)) (Some "db-1") None
           (Some (Credentials "mine"))) world0
    (instances_get (demo_service (Credentials "mine")) (Some "demo-project")
       (Some "db-1")).
Proof.
  apply (X20_requests_use_the_callers_credentials (demo_env (ok JNull))
           (Some (Credentials "mine")) (Credentials "adc")
           (demo_service (Credentials "mine")) (Some "demo-project") None
           world0);
    reflexivity.
Defined.
